(** * Stream attachment: [__fdopen] of third_party/ulib/musl/src/stdio/__fdopen.c

  A shallow embedding of [__fdopen] and the properties its specification
  states.  The function talks to collaborators that are not part of the
  unit ([fcntl], [malloc], [isatty], [__ofl_add], [errno]); every such
  interaction is a [syscall] answered by a handler over an abstract world,
  and recorded in the list of calls of the run.  The [FILE] object the
  function fills in lives in a store of objects indexed by address. *)

From stdpp Require Import gmap.
From Stdlib Require Import ZArith String Ascii List Lia.
Import ListNotations.
Local Open Scope Z_scope.

(** ** C strings *)

Module CString.

(** The terminating byte of a C string. *)
Definition NUL : ascii := Ascii.zero.

(** [*s]: the byte a [const char*] designates.  A [string] stands for the
    bytes in memory before the terminator, so the byte read from the empty
    string is the terminator itself. *)
Definition deref (s : string) : ascii :=
  match s with
  | EmptyString => NUL
  | String c _ => c
  end.

(** [strchr(s, c)] of ISO C: the offset of the first occurrence of [c] in
    [s], where the terminator counts as part of the string; [None] stands
    for the null pointer.  Bytes after an embedded NUL are never read. *)
Fixpoint strchr (s : string) (c : ascii) : option nat :=
  match s with
  | EmptyString => if Ascii.eqb c NUL then Some O else None
  | String x s' =>
      if Ascii.eqb x c then Some O
      else if Ascii.eqb x NUL then None
      else option_map S (strchr s' c)
  end.

(** A pointer used as a condition: true when it is not null. *)
Definition nonnull {A} (p : option A) : bool :=
  match p with Some _ => true | None => false end.

End CString.
Import CString.

(** ** The stream object *)

(** The implementations an operation slot can be bound to. *)
Inductive opfn : Type :=
| fn_null
| __stdio_read
| __stdio_write
| __stdio_seek
| __stdio_close.

Module FILE.

(** The members of [struct _IO_FILE] that [__fdopen] writes.  Pointers are
    addresses, the integer members are taken as mathematical integers (the
    function only combines them with bitwise operations).  The members
    that link the object into the list of open streams are written by
    [__ofl_add] only and are not part of the record. *)
Record t : Type := mk {
  flags : Z;
  fd : Z;
  buf : Z;
  buf_size : Z;
  lbf : Z;
  read : opfn;
  write : opfn;
  seek : opfn;
  close : opfn
}.

(** The object after [memset(f, 0, sizeof *f)]. *)
Definition zero : t := mk 0 0 0 0 0 fn_null fn_null fn_null fn_null.

Definition set_flags (v : Z) (s : t) : t :=
  mk v (fd s) (buf s) (buf_size s) (lbf s) (read s) (write s) (seek s) (close s).
Definition set_fd (v : Z) (s : t) : t :=
  mk (flags s) v (buf s) (buf_size s) (lbf s) (read s) (write s) (seek s) (close s).
Definition set_buf (v : Z) (s : t) : t :=
  mk (flags s) (fd s) v (buf_size s) (lbf s) (read s) (write s) (seek s) (close s).
Definition set_buf_size (v : Z) (s : t) : t :=
  mk (flags s) (fd s) (buf s) v (lbf s) (read s) (write s) (seek s) (close s).
Definition set_lbf (v : Z) (s : t) : t :=
  mk (flags s) (fd s) (buf s) (buf_size s) v (read s) (write s) (seek s) (close s).
Definition set_read (v : opfn) (s : t) : t :=
  mk (flags s) (fd s) (buf s) (buf_size s) (lbf s) v (write s) (seek s) (close s).
Definition set_write (v : opfn) (s : t) : t :=
  mk (flags s) (fd s) (buf s) (buf_size s) (lbf s) (read s) v (seek s) (close s).
Definition set_seek (v : opfn) (s : t) : t :=
  mk (flags s) (fd s) (buf s) (buf_size s) (lbf s) (read s) (write s) v (close s).
Definition set_close (v : opfn) (s : t) : t :=
  mk (flags s) (fd s) (buf s) (buf_size s) (lbf s) (read s) (write s) (seek s) v.

End FILE.

(** ** Constants of the headers

  [stdio_impl.h], [stdio.h], [fcntl.h] and [errno.h] are not part of the
  unit: their constants are parameters of the development. *)

Class Header : Type := {
  F_NORD : Z;
  F_NOWR : Z;
  F_APP : Z;
  UNGET : Z;
  BUFSIZ : Z;
  sizeof_FILE : Z;
  EOF : Z;
  EINVAL : Z;
  O_APPEND : Z;
  FD_CLOEXEC : Z
}.

(** What the statements below need of these constants: the three mode flags
  are non-empty pairwise disjoint masks, so is [O_APPEND] non-empty, and
  [EOF] is negative (hence no character). *)
Class HeaderOk (H : Header) : Prop := {
  nord_nonzero : F_NORD <> 0;
  nowr_nonzero : F_NOWR <> 0;
  app_nonzero : F_APP <> 0;
  nord_nowr : Z.land F_NORD F_NOWR = 0;
  nord_app : Z.land F_NORD F_APP = 0;
  nowr_app : Z.land F_NOWR F_APP = 0;
  o_append_nonzero : O_APPEND <> 0;
  eof_negative : EOF < 0
}.

(** The null pointer. *)
Definition NULL : Z := 0.

(** [x & mask] used as a condition. *)
Definition tst (x mask : Z) : bool := negb (Z.land x mask =? 0).

(** ** Collaborators *)

(** The commands [__fdopen] passes to [fcntl], each with its argument. *)
Inductive fcntl_cmd : Type :=
| F_GETFL
| F_SETFD (arg : Z)
| F_SETFL (arg : Z).

(** A request to a collaborator. *)
Inductive syscall : Type :=
| Fcntl (fd : Z) (cmd : fcntl_cmd)
| Malloc (size : Z)
| Isatty (fd : Z)
| Ofl_add (f : Z)
| Errno (e : Z).

(** A request together with the value it returned. *)
Definition event : Type := syscall * Z.

(** The state a run works on: the collaborators' world and the [FILE]
  objects in memory. *)
Record machine (W : Type) : Type := Machine {
  os : W;
  mem : gmap Z FILE.t
}.
Arguments Machine {W} _ _.
Arguments os {W} _.
Arguments mem {W} _.

(** What a run yields: a value, the state reached, the calls made. *)
Record outcome (W A : Type) : Type := Outcome {
  retval : A;
  final : machine W;
  calls : list event
}.
Arguments Outcome {W A} _ _ _.
Arguments retval {W A} _.
Arguments final {W A} _.
Arguments calls {W A} _.

Section Run.

Context {W : Type}.

(** How the collaborators answer: a value and the world they leave. *)
Definition handler : Type := syscall -> W -> Z * W.

Definition M (A : Type) : Type := handler -> machine W -> outcome W A.

Definition ret {A} (a : A) : M A :=
  fun _ m => Outcome a m [].

Definition bind {A B} (x : M A) (k : A -> M B) : M B :=
  fun sys m =>
    let r := x sys m in
    let r' := k (retval r) sys (final r) in
    Outcome (retval r') (final r') (calls r ++ calls r').

Definition call (c : syscall) : M Z :=
  fun sys m =>
    let a := sys c (os m) in
    Outcome (fst a) (Machine (snd a) (mem m)) [(c, fst a)].

(** [*f = v] for a whole object. *)
Definition store (f : Z) (v : FILE.t) : M unit :=
  fun _ m => Outcome tt (Machine (os m) (<[f := v]> (mem m))) [].

(** An assignment to one member of [*f]. *)
Definition update (f : Z) (g : FILE.t -> FILE.t) : M unit :=
  fun _ m => Outcome tt (Machine (os m) (alter g f (mem m))) [].

(** Reading one member of [*f]. *)
Definition load {A} (f : Z) (g : FILE.t -> A) : M A :=
  fun _ m => Outcome (g (default FILE.zero (mem m !! f))) m [].

Definition when (b : bool) (x : M unit) : M unit :=
  if b then x else ret tt.

End Run.
Arguments handler : clear implicits.
Arguments M : clear implicits.

#[export] Instance M_ret {W} : MRet (M W) := @ret W.
#[export] Instance M_bind {W} : MBind (M W) := fun A B k x => bind x k.

(** ** The function *)

Section Fdopen.

Context {W : Type} `{Header}.

Definition fcntl (fd : Z) (cmd : fcntl_cmd) : M W Z := call (Fcntl fd cmd).
Definition malloc (size : Z) : M W Z := call (Malloc size).
Definition isatty (fd : Z) : M W Z := call (Isatty fd).
Definition set_errno (e : Z) : M W unit := call (Errno e) ;; ret tt.

(** Modelled from the spec: [__ofl_add] is defined in another unit.  By
    section 6 of the specification it links the stream into the
    process-wide list of open streams and returns the stream; the linking
    is left to the collaborators' world, and the link members it writes
    (in the stream and in the former head of the list) are not members of
    [FILE.t]. *)
Definition __ofl_add (f : Z) : M W Z := call (Ofl_add f) ;; ret f.

Definition memset_FILE (f : Z) : M W unit := store f FILE.zero.

(** [FILE* __fdopen(int fd, const char* mode)], statement by statement.
    The result is the address of the stream, [NULL] on failure.  Sizes and
    addresses are added as mathematical integers: the block [malloc]
    returns spans [sizeof *f + UNGET + BUFSIZ] bytes, so none of the sums
    wraps. *)
Definition __fdopen (fd : Z) (mode : string) : M W Z :=
  (* Check for valid initial mode character *)
  if negb (nonnull (strchr "rwa" (deref mode))) then
    set_errno EINVAL ;;
    ret NULL
  else
  (* Validate fd *)
  flags ← fcntl fd F_GETFL ;
  if flags <? 0 then ret NULL else
  (* Allocate FILE+buffer or fail *)
  f ← malloc (sizeof_FILE + UNGET + BUFSIZ) ;
  if f =? NULL then ret NULL else
  (* Zero-fill only the struct, not the buffer *)
  memset_FILE f ;;
  (* Impose mode restrictions *)
  when (negb (nonnull (strchr mode "+")))
    (update f (FILE.set_flags
                 (if Ascii.eqb (deref mode) "r" then F_NOWR else F_NORD))) ;;
  (* Apply close-on-exec flag *)
  when (nonnull (strchr mode "e"))
    (fcntl fd (F_SETFD FD_CLOEXEC) ;; ret tt) ;;
  (* Set append mode on fd if opened for append *)
  when (Ascii.eqb (deref mode) "a")
    (when (negb (tst flags O_APPEND))
       (fcntl fd (F_SETFL (Z.lor flags O_APPEND)) ;; ret tt) ;;
     update f (fun s => FILE.set_flags (Z.lor (FILE.flags s) F_APP) s)) ;;
  update f (FILE.set_fd fd) ;;
  update f (FILE.set_buf (f + sizeof_FILE + UNGET)) ;;
  update f (FILE.set_buf_size BUFSIZ) ;;
  (* Activate line buffered mode for terminals *)
  update f (FILE.set_lbf EOF) ;;
  f_flags ← load f FILE.flags ;
  (if negb (tst f_flags F_NOWR) then
     tty ← isatty fd ;
     when (negb (tty =? 0)) (update f (FILE.set_lbf 10))
   else ret tt) ;;
  (* Initialize op ptrs. No problem if some are unneeded. *)
  update f (FILE.set_read __stdio_read) ;;
  update f (FILE.set_write __stdio_write) ;;
  update f (FILE.set_seek __stdio_seek) ;;
  update f (FILE.set_close __stdio_close) ;;
  (* Add new FILE to open file list *)
  __ofl_add f.

End Fdopen.

(** An outcome with one more call in front of its calls. *)
Definition emit {W A} (e : event) (o : outcome W A) : outcome W A :=
  Outcome (retval o) (final o) (e :: calls o).

(** ** The outcome of [__fdopen] in closed form

    What a run of [__fdopen] amounts to, as a function of the three facts it
    reads off the mode string: the byte [c0] it starts with, whether it
    holds a ['+'] and whether it holds an ['e'].  [fdopen_run] below proves
    that the function computes exactly this. *)

Section Summary.
Context {W : Type} `{Header}.

(** The value of [f->flags] once the mode restrictions are in place. *)
Definition mode_flags (c0 : ascii) (plus : bool) : Z :=
  let dir := if plus then 0 else if Ascii.eqb c0 "r" then F_NOWR else F_NORD in
  if Ascii.eqb c0 "a" then Z.lor dir F_APP else dir.

(** A call made only when [b] holds: the calls made and the world left. *)
Definition opt_call (b : bool) (c : syscall) (sys : handler W) (w : W)
  : list event * W :=
  if b then ([(c, fst (sys c w))], snd (sys c w)) else ([], w).

(** The run from a successful allocation on: [flags] is what the status
    query reported, [f] the address of the block, [w] the world the
    allocator left and [mm] the objects in memory. *)
Definition attached_outcome (fd : Z) (c0 : ascii) (plus e : bool)
    (sys : handler W) (flags f : Z) (w : W) (mm : gmap Z FILE.t) : outcome W Z :=
  let size := sizeof_FILE + UNGET + BUFSIZ in
  let s1 := opt_call e (Fcntl fd (F_SETFD FD_CLOEXEC)) sys w in
  let s2 := opt_call (Ascii.eqb c0 "a" && negb (tst flags O_APPEND))
              (Fcntl fd (F_SETFL (Z.lor flags O_APPEND))) sys (snd s1) in
  let fl := mode_flags c0 plus in
  let s3 := opt_call (negb (tst fl F_NOWR)) (Isatty fd) sys (snd s2) in
  let line := negb (tst fl F_NOWR) && negb (fst (sys (Isatty fd) (snd s2)) =? 0) in
  let o := sys (Ofl_add f) (snd s3) in
  Outcome f
    (Machine (snd o)
       (<[f := FILE.mk fl fd (f + sizeof_FILE + UNGET) BUFSIZ
                 (if line then 10 else EOF)
                 __stdio_read __stdio_write __stdio_seek __stdio_close]> mm))
    ((Fcntl fd F_GETFL, flags) :: (Malloc size, f) ::
     fst s1 ++ fst s2 ++ fst s3 ++ [(Ofl_add f, fst o)]).

Definition fdopen_outcome (fd : Z) (c0 : ascii) (plus e : bool)
    (sys : handler W) (m : machine W) : outcome W Z :=
  if negb (nonnull (strchr "rwa" c0)) then
    let r := sys (Errno EINVAL) (os m) in
    Outcome NULL (Machine (snd r) (mem m)) [(Errno EINVAL, fst r)]
  else
  let q := sys (Fcntl fd F_GETFL) (os m) in
  let flags := fst q in
  if flags <? 0 then
    Outcome NULL (Machine (snd q) (mem m)) [(Fcntl fd F_GETFL, flags)]
  else
  let size := sizeof_FILE + UNGET + BUFSIZ in
  let a := sys (Malloc size) (snd q) in
  let f := fst a in
  if f =? NULL then
    Outcome NULL (Machine (snd a) (mem m))
      [(Fcntl fd F_GETFL, flags); (Malloc size, f)]
  else
  attached_outcome fd c0 plus e sys flags f (snd a) (mem m).

End Summary.

(** ** A reference world

    One behaviour the collaborators may have, used to run the function: a
    table of open descriptors, a bump allocator with a bounded arena, the
    list of open streams and [errno].  The theorems below hold for every
    handler, not only for this one. *)

Module Sim.

Record fdesc : Type := Fdesc {
  status : Z;        (* what F_GETFL reports *)
  cloexec : bool;    (* the FD_CLOEXEC descriptor flag *)
  tty : bool;        (* whether the channel is a terminal *)
  fd_locked : bool;  (* the channel refuses changes of its descriptor flags *)
  fl_locked : bool   (* the channel refuses changes of its status flags *)
}.

Record world : Type := World {
  fds : gmap Z fdesc;
  errno : Z;
  brk : Z;           (* next address the allocator hands out *)
  avail : Z;         (* bytes left in the arena *)
  ofl : list Z       (* the open streams, most recent first *)
}.

Definition EPERM : Z := 1.
Definition EBADF : Z := 9.
Definition ENOMEM : Z := 12.
Definition ENOTTY : Z := 25.

(** A call that fails: it returns [r] and leaves [e] in [errno]. *)
Definition fail (e r : Z) (w : world) : Z * world :=
  (r, World (fds w) e (brk w) (avail w) (ofl w)).

Definition with_fd (fd : Z) (d : fdesc) (w : world) : world :=
  World (<[fd := d]> (fds w)) (errno w) (brk w) (avail w) (ofl w).

Definition kernel `{Header} : handler world :=
  fun c w =>
    match c with
    | Fcntl fd cmd =>
        match fds w !! fd with
        | None => fail EBADF (-1) w
        | Some d =>
            match cmd with
            | F_GETFL => (status d, w)
            | F_SETFD arg =>
                if fd_locked d then fail EPERM (-1) w
                else (0, with_fd fd
                           (Fdesc (status d) (tst arg FD_CLOEXEC) (tty d)
                              (fd_locked d) (fl_locked d)) w)
            | F_SETFL arg =>
                if fl_locked d then fail EPERM (-1) w
                else (0, with_fd fd
                           (Fdesc arg (cloexec d) (tty d)
                              (fd_locked d) (fl_locked d)) w)
            end
        end
    | Malloc size =>
        if size <=? avail w
        then (brk w, World (fds w) (errno w) (brk w + size) (avail w - size) (ofl w))
        else fail ENOMEM NULL w
    | Isatty fd =>
        match fds w !! fd with
        | None => fail EBADF 0 w
        | Some d => if tty d then (1, w) else fail ENOTTY 0 w
        end
    | Ofl_add f => (f, World (fds w) (errno w) (brk w) (avail w) (f :: ofl w))
    | Errno e => (0, World (fds w) e (brk w) (avail w) (ofl w))
    end.

(** Header constants as upstream musl has them on Linux. *)
#[export] Instance musl : Header := {|
    F_NORD := 4;
    F_NOWR := 8;
    F_APP := 128;
    UNGET := 8;
    BUFSIZ := 1024;
    sizeof_FILE := 232;
    EOF := -1;
    EINVAL := 22;
    O_APPEND := 1024;
    FD_CLOEXEC := 1
|}.

Definition O_RDWR : Z := 2.

(** Descriptor 0 is a terminal, 3 a regular file opened read-write, 4 a
    regular file already in append mode, 5 a channel whose status flags
    cannot be changed, 6 one whose descriptor flags cannot be changed; 7 is
    not open. *)
Definition fdtab : gmap Z fdesc :=
  <[0 := Fdesc O_RDWR false true false false]>
  (<[3 := Fdesc O_RDWR false false false false]>
  (<[4 := Fdesc (Z.lor O_RDWR 1024) false false false false]>
  (<[5 := Fdesc O_RDWR false false false true]>
  (<[6 := Fdesc O_RDWR false false true false]> ∅)))).

Definition w0 : world := World fdtab 0 4096 65536 [].

(** The same world with an exhausted arena. *)
Definition w_full : world := World fdtab 0 4096 0 [].

Definition m0 : machine world := Machine w0 ∅.

(** The world [w0] with descriptor 3 refusing changes of its descriptor
    flags. *)
Definition w_locked : world :=
  World (<[3 := Fdesc O_RDWR false false true false]> fdtab) 0 4096 65536 [].

Definition m_locked : machine world := Machine w_locked ∅.

(** What of a world the calls other than [F_SETFD] can observe. *)
Definition view (w : world) : gmap Z (Z * bool * bool) * Z * Z * list Z :=
  ((fun d => (status d, tty d, fl_locked d)) <$> fds w, brk w, avail w, ofl w).

End Sim.

(** ** Vocabulary of the statements *)

(** The flags the status query reports for [fd] in a given state. *)
Definition queried {W} (sys : handler W) (fd : Z) (m : machine W) : Z :=
  fst (sys (Fcntl fd F_GETFL) (os m)).

(** The address the allocator hands out once the status query is done. *)
Definition allocated {W} `{Header} (sys : handler W) (fd : Z) (m : machine W) : Z :=
  fst (sys (Malloc (sizeof_FILE + UNGET + BUFSIZ))
         (snd (sys (Fcntl fd F_GETFL) (os m)))).

(** The object at the address a run returned. *)
Definition stream_of {W} (x : outcome W Z) : option FILE.t :=
  mem (final x) !! retval x.

(** The run made the request [c]. *)
Definition requested {W A} (c : syscall) (x : outcome W A) : Prop :=
  exists r, In (c, r) (calls x).

(** A status query on [fd] in world [w] would report the append flag. *)
Definition appending {W} `{Header} (sys : handler W) (fd : Z) (w : W) : Prop :=
  tst (fst (sys (Fcntl fd F_GETFL) w)) O_APPEND = true.

(** The coupling of the stream's append bit with the descriptor's append
    flag, as the specification states it: for a descriptor whose queried
    flags lack append and a mode string that starts with ['a'], a
    successful run leaves the append flag on the descriptor and the append
    bit in the stream. *)
Definition append_coupled {W} `{Header} (sys : handler W) (fd : Z)
    (mode : string) (m : machine W) : Prop :=
  let x := __fdopen fd mode sys m in
  tst (queried sys fd m) O_APPEND = false ->
  deref mode = "a"%char ->
  retval x <> NULL ->
  appending sys fd (os (final x)) /\
  exists s, stream_of x = Some s /\ tst (FILE.flags s) F_APP = true.

(** What the collaborators owe for the append flag of [fd] to hold at the
    end of a run: a request to set status flags that include append, when
    it succeeds, makes later queries report it, and neither the terminal
    query nor the insertion into the registry takes it away. *)
Definition honours_append {W} `{Header} (sys : handler W) (fd : Z) : Prop :=
  (forall a w,
     tst a O_APPEND = true ->
     0 <= fst (sys (Fcntl fd (F_SETFL a)) w) ->
     appending sys fd (snd (sys (Fcntl fd (F_SETFL a)) w))) /\
  (forall fd' w,
     appending sys fd w -> appending sys fd (snd (sys (Isatty fd') w))) /\
  (forall f w,
     appending sys fd w -> appending sys fd (snd (sys (Ofl_add f) w))).

(** Requests to set status flags. *)
Definition is_setfl (c : syscall) : bool :=
  match c with
  | Fcntl _ (F_SETFL _) => true
  | _ => false
  end.

(** What the collaborators owe for a descriptor that is in append mode to
    stay so over a run that does not ask for its status flags to be set:
    no other call takes the append flag of [fd] away. *)
Definition keeps_append {W} `{Header} (sys : handler W) (fd : Z) : Prop :=
  forall c w,
    is_setfl c = false ->
    appending sys fd w -> appending sys fd (snd (sys c w)).

(** Requests for close-on-exec. *)
Definition is_setfd (c : syscall) : bool :=
  match c with
  | Fcntl _ (F_SETFD _) => true
  | _ => false
  end.

(** Two behaviours of the collaborators, over worlds related by [R], that
    differ at most in what close-on-exec requests answer and in what [R]
    does not see: every call keeps the worlds related, and every call other
    than a close-on-exec request answers the same on both sides. *)
Definition same_but_cloexec {W1 W2} (R : W1 -> W2 -> Prop)
    (sys1 : handler W1) (sys2 : handler W2) : Prop :=
  (forall c w1 w2, R w1 w2 -> R (snd (sys1 c w1)) (snd (sys2 c w2))) /\
  (forall c w1 w2, R w1 w2 -> is_setfd c = false ->
     fst (sys1 c w1) = fst (sys2 c w2)).


(** ** Proofs *)

Lemma musl_ok : HeaderOk Sim.musl.
Proof. split; cbn; first [ discriminate | reflexivity ]. Qed.

(** ** Running a computation step by step *)

Section Steps.
Context {W : Type}.
Implicit Types (sys : handler W) (w : W) (mm : gmap Z FILE.t).

Lemma outcome_eta {A} (o : outcome W A) :
  Outcome (retval o) (final o) (calls o) = o.
Proof. now destruct o. Qed.

Lemma run_ret {A} (a : A) sys (m : machine W) : ret a sys m = Outcome a m [].
Proof. reflexivity. Qed.

Lemma run_ret_bind {A B} (a : A) (k : A -> M W B) sys (m : machine W) :
  (ret a ≫= k) sys m = k a sys m.
Proof. unfold mbind, M_bind, bind, ret. cbn. apply outcome_eta. Qed.

Lemma run_bind_assoc {A B C} (x : M W A) (f : A -> M W B) (g : B -> M W C)
    sys (m : machine W) :
  ((x ≫= f) ≫= g) sys m = (x ≫= (fun a => f a ≫= g)) sys m.
Proof. unfold mbind, M_bind, bind. cbn. now rewrite app_assoc. Qed.

Lemma run_call c sys w mm :
  call c sys (Machine w mm) =
  Outcome (fst (sys c w)) (Machine (snd (sys c w)) mm) [(c, fst (sys c w))].
Proof. reflexivity. Qed.

Lemma run_call_bind {B} c (k : Z -> M W B) sys w mm :
  (call c ≫= k) sys (Machine w mm) =
  emit (c, fst (sys c w)) (k (fst (sys c w)) sys (Machine (snd (sys c w)) mm)).
Proof. reflexivity. Qed.

Lemma run_store_bind {B} f v (k : unit -> M W B) sys w mm :
  (store f v ≫= k) sys (Machine w mm) = k tt sys (Machine w (<[f := v]> mm)).
Proof. unfold mbind, M_bind, bind, store. cbn. apply outcome_eta. Qed.

(** Members of an object that has just been written are assigned and read
    in place. *)
Lemma run_update_bind {B} f g v (k : unit -> M W B) sys w mm :
  (update f g ≫= k) sys (Machine w (<[f := v]> mm)) =
  k tt sys (Machine w (<[f := g v]> mm)).
Proof.
  unfold mbind, M_bind, bind, update. cbn.
  rewrite alter_insert_eq. apply outcome_eta.
Qed.

Lemma run_load_bind {A B} f (g : FILE.t -> A) v (k : A -> M W B) sys w mm :
  (load f g ≫= k) sys (Machine w (<[f := v]> mm)) =
  k (g v) sys (Machine w (<[f := v]> mm)).
Proof.
  unfold mbind, M_bind, bind, load. cbn.
  rewrite lookup_insert_eq. apply outcome_eta.
Qed.

End Steps.

(** Members read off an object given by its assignments. *)
Ltac file_simpl :=
  cbn [FILE.set_flags FILE.set_fd FILE.set_buf FILE.set_buf_size FILE.set_lbf
       FILE.set_read FILE.set_write FILE.set_seek FILE.set_close FILE.zero
       FILE.flags FILE.fd FILE.buf FILE.buf_size FILE.lbf FILE.read
       FILE.write FILE.seek FILE.close].

(** One step of the computation at the head of the goal. *)
Ltac run_step :=
  lazymatch goal with
  | |- context [ mbind ?k ?x ?sys ?m ] =>
      lazymatch x with
      | mbind _ _ => rewrite (run_bind_assoc _ _ k sys m)
      | ret _ => rewrite (run_ret_bind _ k sys m)
      | call _ => rewrite run_call_bind
      | store _ _ => rewrite run_store_bind
      | update _ _ => rewrite run_update_bind
      | load _ _ => rewrite run_load_bind; file_simpl
      | if negb ?b then _ else _ => destruct b eqn:?; cbn [negb andb fst snd]
      | if ?b then _ else _ => destruct b eqn:?; cbn [negb andb fst snd]
      end
  | |- context [ call ?c ?sys (Machine ?w ?mm) ] => rewrite (run_call c sys w mm)
  | |- context [ ret ?a ?sys ?m ] => rewrite (run_ret a sys m)
  | |- context [ (if negb ?b then _ else _) ?sys (Machine ?w ?mm) ] =>
      destruct b eqn:?; cbn [negb andb fst snd]
  | |- context [ (if ?b then _ else _) ?sys (Machine ?w ?mm) ] =>
      destruct b eqn:?; cbn [negb andb fst snd]
  end.

Section SummaryFacts.
Context {W : Type} `{Header}.

(** [__fdopen] computes [fdopen_outcome]. *)
Lemma fdopen_run (fd : Z) (mode : string) (sys : handler W) (m : machine W) :
  __fdopen fd mode sys m =
  fdopen_outcome fd (deref mode) (nonnull (strchr mode "+"))
    (nonnull (strchr mode "e")) sys m.
Proof.
  destruct m as [w mm].
  unfold fdopen_outcome, attached_outcome, mode_flags, opt_call. cbv zeta. cbn [os mem].
  unfold __fdopen, set_errno, __ofl_add, memset_FILE, fcntl, malloc, isatty, when.
  repeat run_step.
  all: unfold emit; cbn [retval final calls os mem fst snd andb negb app].
  all: file_simpl.
  all: try reflexivity.
Qed.

End SummaryFacts.

(** ** Facts about the vocabulary *)

Lemma nonnull_true {A} (p : option A) : nonnull p = true <-> p <> None.
Proof. destruct p; cbn; split; congruence. Qed.

Lemma nonnull_false {A} (p : option A) : nonnull p = false <-> p = None.
Proof. destruct p; cbn; split; congruence. Qed.

(** The first bytes the check of [__fdopen] lets through: the three mode
    letters, and the terminator. *)
Lemma strchr_rwa (c : ascii) :
  strchr "rwa" c <> None <->
  c = "r"%char \/ c = "w"%char \/ c = "a"%char \/ c = NUL.
Proof.
  cbn [strchr].
  destruct (Ascii.eqb_spec "r" c) as [<-|Hr]; [intuition discriminate|].
  change (Ascii.eqb "r" NUL) with false. cbn [option_map].
  destruct (Ascii.eqb_spec "w" c) as [<-|Hw]; [intuition discriminate|].
  change (Ascii.eqb "w" NUL) with false. cbn [option_map].
  destruct (Ascii.eqb_spec "a" c) as [<-|Ha]; [intuition discriminate|].
  change (Ascii.eqb "a" NUL) with false. cbn [option_map].
  destruct (Ascii.eqb_spec c NUL) as [->|Hn]; cbn [option_map].
  - intuition discriminate.
  - intuition congruence.
Qed.

Lemma tst_diag (mask : Z) : mask <> 0 -> tst mask mask = true.
Proof.
  intros Hm. unfold tst. rewrite Z.land_diag.
  now destruct (Z.eqb_spec mask 0).
Qed.

Lemma tst_zero (mask : Z) : tst 0 mask = false.
Proof. unfold tst. now rewrite Z.land_0_l. Qed.

Lemma tst_disjoint (x mask : Z) : Z.land x mask = 0 -> tst x mask = false.
Proof. intros E. unfold tst. now rewrite E. Qed.

Lemma tst_lor (x y mask : Z) : tst (Z.lor x y) mask = tst x mask || tst y mask.
Proof.
  unfold tst. rewrite Z.land_lor_distr_l.
  destruct (Z.eqb_spec (Z.land x mask) 0) as [E1|E1],
           (Z.eqb_spec (Z.land y mask) 0) as [E2|E2]; cbn;
    destruct (Z.eqb_spec (Z.lor (Z.land x mask) (Z.land y mask)) 0) as [E|E];
    try reflexivity; rewrite Z.lor_eq_0_iff in E; tauto.
Qed.

Lemma tst_lor_same (x mask : Z) : mask <> 0 -> tst (Z.lor x mask) mask = true.
Proof. intros Hm. rewrite tst_lor, (tst_diag mask Hm). apply orb_true_r. Qed.

Section ModeFlags.
Context `{HeaderOk}.

Lemma mode_flags_nowr (c0 : ascii) (plus : bool) :
  tst (mode_flags c0 plus) F_NOWR = negb plus && Ascii.eqb c0 "r".
Proof.
  pose proof nord_nowr. pose proof nowr_app. pose proof nowr_nonzero.
  unfold mode_flags.
  destruct (Ascii.eqb_spec c0 "a") as [->|], plus;
    change (Ascii.eqb "a" "r") with false; cbn [negb andb];
    rewrite ?tst_lor, ?tst_zero, ?andb_false_r; cbn [orb].
  - apply tst_disjoint. now rewrite Z.land_comm.
  - rewrite (tst_disjoint F_NORD), (tst_disjoint F_APP); trivial.
    now rewrite Z.land_comm.
  - reflexivity.
  - destruct (Ascii.eqb c0 "r"); [now apply tst_diag | now apply tst_disjoint].
Qed.

Lemma mode_flags_nord (c0 : ascii) (plus : bool) :
  tst (mode_flags c0 plus) F_NORD = negb plus && negb (Ascii.eqb c0 "r").
Proof.
  pose proof nord_nowr. pose proof nord_app. pose proof nord_nonzero.
  unfold mode_flags.
  destruct (Ascii.eqb_spec c0 "a") as [->|], plus;
    change (Ascii.eqb "a" "r") with false; cbn [negb andb];
    rewrite ?tst_lor, ?tst_zero; cbn [orb].
  - apply tst_disjoint. now rewrite Z.land_comm.
  - rewrite (tst_diag F_NORD); trivial.
  - reflexivity.
  - destruct (Ascii.eqb c0 "r"); cbn [negb];
      [apply tst_disjoint; now rewrite Z.land_comm | now apply tst_diag].
Qed.

Lemma mode_flags_app (c0 : ascii) (plus : bool) :
  tst (mode_flags c0 plus) F_APP = Ascii.eqb c0 "a".
Proof.
  pose proof nord_app. pose proof nowr_app. pose proof app_nonzero.
  unfold mode_flags.
  destruct (Ascii.eqb_spec c0 "a") as [->|].
  - now apply tst_lor_same.
  - destruct plus; [apply tst_zero|].
    destruct (Ascii.eqb c0 "r"); now apply tst_disjoint.
Qed.

End ModeFlags.

(** ** The four ways out of [__fdopen]

    Three return null before a stream exists (mode rejected, status query
    failed, allocation failed); the fourth returns the stream. *)

Section Exits.
Context {W : Type} `{Header}.
Implicit Types (sys : handler W) (m : machine W) (fd : Z) (mode : string).

Lemma fdopen_rejected fd mode sys m :
  strchr "rwa" (deref mode) = None ->
  __fdopen fd mode sys m =
  Outcome NULL (Machine (snd (sys (Errno EINVAL) (os m))) (mem m))
    [(Errno EINVAL, fst (sys (Errno EINVAL) (os m)))].
Proof.
  intros E. rewrite fdopen_run. unfold fdopen_outcome. now rewrite E.
Qed.

Lemma fdopen_query_failed fd mode sys m :
  strchr "rwa" (deref mode) <> None ->
  queried sys fd m < 0 ->
  __fdopen fd mode sys m =
  Outcome NULL (Machine (snd (sys (Fcntl fd F_GETFL) (os m))) (mem m))
    [(Fcntl fd F_GETFL, queried sys fd m)].
Proof.
  intros Hv Hq. apply nonnull_true in Hv.
  rewrite fdopen_run. unfold fdopen_outcome. rewrite Hv. cbn [negb].
  unfold queried in *. cbv zeta.
  now destruct (Z.ltb_spec (sys (Fcntl fd F_GETFL) (os m)).1 0); [|lia].
Qed.

Lemma fdopen_alloc_failed fd mode sys m :
  strchr "rwa" (deref mode) <> None ->
  0 <= queried sys fd m ->
  allocated sys fd m = NULL ->
  __fdopen fd mode sys m =
  Outcome NULL
    (Machine (snd (sys (Malloc (sizeof_FILE + UNGET + BUFSIZ))
                     (snd (sys (Fcntl fd F_GETFL) (os m))))) (mem m))
    [(Fcntl fd F_GETFL, queried sys fd m);
     (Malloc (sizeof_FILE + UNGET + BUFSIZ), NULL)].
Proof.
  intros Hv Hq Ha. apply nonnull_true in Hv.
  rewrite fdopen_run. unfold fdopen_outcome. rewrite Hv. cbn [negb].
  unfold queried, allocated in *. cbv zeta.
  destruct (Z.ltb_spec (sys (Fcntl fd F_GETFL) (os m)).1 0); [lia|].
  now rewrite Ha.
Qed.

Lemma fdopen_attached fd mode sys m :
  strchr "rwa" (deref mode) <> None ->
  0 <= queried sys fd m ->
  allocated sys fd m <> NULL ->
  __fdopen fd mode sys m =
  attached_outcome fd (deref mode) (nonnull (strchr mode "+"))
    (nonnull (strchr mode "e")) sys (queried sys fd m) (allocated sys fd m)
    (snd (sys (Malloc (sizeof_FILE + UNGET + BUFSIZ))
            (snd (sys (Fcntl fd F_GETFL) (os m))))) (mem m).
Proof.
  intros Hv Hq Ha. apply nonnull_true in Hv.
  rewrite fdopen_run. unfold fdopen_outcome. rewrite Hv. cbn [negb].
  unfold queried, allocated in *. cbv zeta.
  destruct (Z.ltb_spec (sys (Fcntl fd F_GETFL) (os m)).1 0); [lia|].
  now destruct (Z.eqb_spec
    (sys (Malloc (sizeof_FILE + UNGET + BUFSIZ)) (sys (Fcntl fd F_GETFL) (os m)).2).1
    NULL).
Qed.

(** A run that returns a stream went through all three checks. *)
Lemma fdopen_nonnull fd mode sys m :
  retval (__fdopen fd mode sys m) <> NULL ->
  strchr "rwa" (deref mode) <> None /\
  0 <= queried sys fd m /\
  allocated sys fd m <> NULL.
Proof.
  intros Hr.
  destruct (strchr "rwa" (deref mode)) eqn:Hv.
  2:{ rewrite fdopen_rejected in Hr by assumption. now cbn in Hr. }
  assert (Hv' : strchr "rwa" (deref mode) <> None) by congruence.
  destruct (Z.lt_ge_cases (queried sys fd m) 0) as [Hq|Hq].
  { rewrite fdopen_query_failed in Hr by assumption. now cbn in Hr. }
  destruct (Z.eq_dec (allocated sys fd m) NULL) as [Ha|Ha].
  { rewrite fdopen_alloc_failed in Hr by assumption. now cbn in Hr. }
  repeat split; trivial. congruence.
Qed.

End Exits.

(** ** What a run that attaches a stream leaves behind *)

Section Attached.
Context {W : Type} `{Header}.
Variables (fd : Z) (c0 : ascii) (plus e : bool) (sys : handler W).
Variables (flags f : Z) (w : W) (mm : gmap Z FILE.t).

Local Abbreviation x := (attached_outcome fd c0 plus e sys flags f w mm).

Lemma attached_retval : retval x = f.
Proof. reflexivity. Qed.

(** The object at the returned address, with the answer [t] of the
    terminal query the sentinel was computed from. *)
Lemma attached_stream :
  exists t,
    stream_of x =
      Some (FILE.mk (mode_flags c0 plus) fd (f + sizeof_FILE + UNGET) BUFSIZ
              (if negb (tst (mode_flags c0 plus) F_NOWR) && negb (t =? 0)
               then 10 else EOF)
              __stdio_read __stdio_write __stdio_seek __stdio_close) /\
    (tst (mode_flags c0 plus) F_NOWR = false -> In (Isatty fd, t) (calls x)) /\
    (forall fd' r, In (Isatty fd', r) (calls x) ->
       tst (mode_flags c0 plus) F_NOWR = false /\ r = t).
Proof.
  unfold attached_outcome, stream_of, opt_call. cbv zeta.
  cbn [retval final calls mem].
  rewrite lookup_insert_eq.
  eexists. split; [reflexivity|]. split.
  - intros ->. cbn [negb fst snd]. right. right.
    rewrite !in_app_iff. right. right. left. now left.
  - intros fd' r [E|[E|Hin]]; [discriminate E..|].
    rewrite !in_app_iff in Hin.
    destruct Hin as [Hin|[Hin|[Hin|Hin]]].
    + destruct e; cbn in Hin; intuition discriminate.
    + destruct (Ascii.eqb c0 "a" && negb (tst flags O_APPEND));
        cbn in Hin; intuition discriminate.
    + destruct (tst (mode_flags c0 plus) F_NOWR); cbn in Hin; [tauto|].
      destruct Hin as [E|[]]. split; [reflexivity|]. congruence.
    + cbn in Hin. intuition discriminate.
Qed.

(** Every call of the run, by kind. *)
Lemma attached_calls (c : syscall) (r : Z) :
  In (c, r) (calls x) ->
  c = Fcntl fd F_GETFL \/
  c = Malloc (sizeof_FILE + UNGET + BUFSIZ) \/
  c = Fcntl fd (F_SETFD FD_CLOEXEC) /\ e = true \/
  c = Fcntl fd (F_SETFL (Z.lor flags O_APPEND)) /\
    Ascii.eqb c0 "a" = true /\ tst flags O_APPEND = false \/
  c = Isatty fd \/
  c = Ofl_add f.
Proof.
  unfold attached_outcome, opt_call. cbv zeta. cbn [calls].
  intros [E|[E|Hin]]; [inversion E; tauto..|].
  rewrite !in_app_iff in Hin.
  destruct Hin as [Hin|[Hin|[Hin|Hin]]].
  - destruct e; cbn in Hin; [|tauto].
    destruct Hin as [E|[]]. inversion E. tauto.
  - destruct (Ascii.eqb c0 "a"), (tst flags O_APPEND); cbn in Hin; try tauto.
    destruct Hin as [E|[]]. inversion E. tauto.
  - destruct (tst (mode_flags c0 plus) F_NOWR); cbn in Hin; [tauto|].
    destruct Hin as [E|[]]. inversion E. tauto.
  - destruct Hin as [E|[]]. inversion E. tauto.
Qed.

Lemma attached_registered :
  exists pre r, calls x = pre ++ [(Ofl_add f, r)].
Proof.
  unfold attached_outcome. cbv zeta. cbn [calls].
  match goal with
  | |- context [ ?a :: ?b :: ?l1 ++ ?l2 ++ ?l3 ++ [ (_, ?r) ] ] =>
      exists (a :: b :: l1 ++ l2 ++ l3), r
  end.
  cbn. now rewrite <- !app_assoc.
Qed.

Lemma attached_cloexec : e = true -> requested (Fcntl fd (F_SETFD FD_CLOEXEC)) x.
Proof.
  intros ->. unfold attached_outcome, requested, opt_call. cbv zeta.
  cbn [calls fst snd]. eexists. right. right. left. reflexivity.
Qed.

Lemma attached_append :
  Ascii.eqb c0 "a" = true -> tst flags O_APPEND = false ->
  exists r,
    In (Fcntl fd (F_SETFL (Z.lor flags O_APPEND)), r) (calls x) /\
    r = fst (sys (Fcntl fd (F_SETFL (Z.lor flags O_APPEND)))
               (snd (opt_call e (Fcntl fd (F_SETFD FD_CLOEXEC)) sys w))).
Proof.
  intros Ha Hf. unfold attached_outcome. cbv zeta.
  rewrite Ha, Hf. cbn [negb andb opt_call calls fst snd].
  eexists. split; [|reflexivity].
  right. right. rewrite in_app_iff. right. now left.
Qed.

(** The object at the returned address again, now with the world [w'] in
    which the terminal query is answered: the sentinel is computed from
    the answer of the handler in that world. *)
Lemma attached_tty :
  exists w',
    stream_of x =
      Some (FILE.mk (mode_flags c0 plus) fd (f + sizeof_FILE + UNGET) BUFSIZ
              (if negb (tst (mode_flags c0 plus) F_NOWR) &&
                  negb (fst (sys (Isatty fd) w') =? 0)
               then 10 else EOF)
              __stdio_read __stdio_write __stdio_seek __stdio_close) /\
    (tst (mode_flags c0 plus) F_NOWR = false ->
       In (Isatty fd, fst (sys (Isatty fd) w')) (calls x)) /\
    (forall fd' r, In (Isatty fd', r) (calls x) ->
       tst (mode_flags c0 plus) F_NOWR = false /\
       r = fst (sys (Isatty fd) w')).
Proof.
  unfold attached_outcome, stream_of, opt_call. cbv zeta.
  cbn [retval final calls mem].
  rewrite lookup_insert_eq.
  eexists. split; [reflexivity|]. split.
  - intros ->. cbn [negb fst snd]. right. right.
    rewrite !in_app_iff. right. right. left. now left.
  - intros fd' r [E|[E|Hin]]; [discriminate E..|].
    rewrite !in_app_iff in Hin.
    destruct Hin as [Hin|[Hin|[Hin|Hin]]].
    + destruct e; cbn in Hin; intuition discriminate.
    + destruct (Ascii.eqb c0 "a" && negb (tst flags O_APPEND));
        cbn in Hin; intuition discriminate.
    + destruct (tst (mode_flags c0 plus) F_NOWR); cbn in Hin; [tauto|].
      destruct Hin as [E|[]]. split; [reflexivity|]. congruence.
    + cbn in Hin. intuition discriminate.
Qed.

(** With queried flags that hold append the run asks for no status flags
    to be set. *)
Lemma attached_no_setfl (fd' a : Z) :
  tst flags O_APPEND = true -> ~ requested (Fcntl fd' (F_SETFL a)) x.
Proof.
  intros Hfl [r Hin]. apply attached_calls in Hin.
  destruct Hin as [E|[E|[[E _]|[[_ [_ Hn]]|[E|E]]]]]; try discriminate E.
  congruence.
Qed.

(** ... and collaborators that keep the append flag keep it to the end. *)
Lemma attached_keeps :
  keeps_append sys fd ->
  tst flags O_APPEND = true ->
  appending sys fd w ->
  appending sys fd (os (final x)).
Proof.
  intros Hk Hfl Hw. unfold attached_outcome. cbv zeta. cbn [final os].
  rewrite Hfl. cbn [negb]. rewrite andb_false_r.
  apply Hk; [reflexivity|].
  unfold opt_call.
  destruct (negb (tst (mode_flags c0 plus) F_NOWR)); cbn [snd];
    [apply Hk; [reflexivity|]|];
    (destruct e; cbn [snd]; [apply Hk; [reflexivity|]|]; exact Hw).
Qed.

End Attached.

Section AttachedAppend.
Context {W : Type} `{Header}.

(** Once the append request of a run has succeeded, with collaborators
    that honour it, a status query at the end of the run reports append. *)
Lemma attached_appending fd c0 plus e sys flags f (w : W) mm :
  honours_append sys fd ->
  Ascii.eqb c0 "a" = true ->
  tst flags O_APPEND = false ->
  O_APPEND <> 0 ->
  0 <= fst (sys (Fcntl fd (F_SETFL (Z.lor flags O_APPEND)))
              (snd (opt_call e (Fcntl fd (F_SETFD FD_CLOEXEC)) sys w))) ->
  appending sys fd (os (final (attached_outcome fd c0 plus e sys flags f w mm))).
Proof.
  intros (Hset & Htty & Hofl) Hm Hfl Hne Hok.
  unfold attached_outcome. cbv zeta. cbn [final os].
  rewrite Hm, Hfl. cbn [negb andb].
  apply Hofl. unfold opt_call at 1.
  destruct (negb _); cbn [snd]; [apply Htty|];
    (apply Hset; [now apply tst_lor_same | exact Hok]).
Qed.

End AttachedAppend.

(** Brings in the object of the run in the goal, the answer [t] of the
    terminal query and the two facts that tie [t] to the calls. *)
Ltac attached_stream_facts t Hs Hin Hout :=
  match goal with
  | |- context [ attached_outcome ?fd ?c0 ?p ?e ?sys ?fl ?f ?w ?mm ] =>
      destruct (attached_stream fd c0 p e sys fl f w mm) as (t & Hs & Hin & Hout)
  end.

(** ** The properties of the specification *)

Section Claims.
Context {W : Type} `{HOk : HeaderOk}.
Implicit Types (sys : handler W) (m : machine W) (fd : Z) (mode : string).

(** C8: in every stream a successful [__fdopen] returns, the buffer pointer
    is the base address of the object plus the size of the header plus the
    unget reserve, and the recorded capacity is the one constant [BUFSIZ];
    the object was allocated as one block of header, reserve and buffer. *)
Theorem fdopen_buffer_layout sys fd mode m :
  let x := __fdopen fd mode sys m in
  retval x <> NULL ->
  exists s,
    stream_of x = Some s /\
    FILE.buf s = retval x + sizeof_FILE + UNGET /\
    FILE.buf_size s = BUFSIZ /\
    In (Malloc (sizeof_FILE + UNGET + BUFSIZ), retval x) (calls x).
Proof.
  intros x Hr. subst x.
  destruct (fdopen_nonnull _ _ _ _ Hr) as (Hv & Hq & Ha).
  rewrite fdopen_attached by assumption.
  attached_stream_facts t Hs Hin Hout.
  eexists. split; [exact Hs|]. cbn [FILE.buf FILE.buf_size].
  rewrite attached_retval. repeat split.
  unfold attached_outcome. cbn. now right; left.
Qed.

(** C2: in every stream a successful [__fdopen] returns, a mode string
    without ['+'] leaves exactly one of no-read and no-write set, no-write
    for a first character ['r'] and no-read for ['w'] or ['a']; a mode
    string with ['+'] leaves neither set; never are both set. *)
Theorem fdopen_direction_flags sys fd mode m :
  let x := __fdopen fd mode sys m in
  retval x <> NULL ->
  exists s,
    stream_of x = Some s /\
    (strchr mode "+" = None ->
       xorb (tst (FILE.flags s) F_NORD) (tst (FILE.flags s) F_NOWR) = true /\
       (deref mode = "r"%char ->
          tst (FILE.flags s) F_NOWR = true) /\
       (deref mode = "w"%char \/ deref mode = "a"%char ->
          tst (FILE.flags s) F_NORD = true)) /\
    (strchr mode "+" <> None ->
       tst (FILE.flags s) F_NORD = false /\ tst (FILE.flags s) F_NOWR = false) /\
    tst (FILE.flags s) F_NORD && tst (FILE.flags s) F_NOWR = false.
Proof.
  intros x Hr. subst x.
  destruct (fdopen_nonnull _ _ _ _ Hr) as (Hv & Hq & Ha).
  rewrite fdopen_attached by assumption.
  attached_stream_facts t Hs Hin Hout.
  eexists. split; [exact Hs|]. cbn [FILE.flags].
  rewrite mode_flags_nord, mode_flags_nowr.
  split; [|split].
  - intros Hp. apply nonnull_false in Hp. rewrite Hp. cbn [negb andb].
    split; [now destruct (Ascii.eqb (deref mode) "r")|].
    split; [now intros ->|].
    now intros [-> | ->].
  - intros Hp. apply nonnull_true in Hp. now rewrite Hp.
  - destruct (nonnull (strchr mode "+")), (Ascii.eqb (deref mode) "r");
      reflexivity.
Qed.

(** C9: the empty mode string passes the check of the first character (the
    terminator is found in ["rwa"]): no invalid-argument error is raised,
    and with a successful status query and allocation [__fdopen] returns a
    stream whose no-read bit is set. *)
Theorem fdopen_empty_mode sys fd m :
  0 <= queried sys fd m ->
  allocated sys fd m <> NULL ->
  let x := __fdopen fd "" sys m in
  strchr "rwa" (deref "") = Some 3%nat /\
  (forall e, ~ requested (Errno e) x) /\
  retval x <> NULL /\
  exists s, stream_of x = Some s /\ tst (FILE.flags s) F_NORD = true.
Proof.
  intros Hq Ha x. subst x.
  split; [reflexivity|].
  rewrite fdopen_attached by (trivial; discriminate).
  split; [|split].
  - intros e [r Hin]. apply attached_calls in Hin.
    intuition discriminate.
  - now rewrite attached_retval.
  - attached_stream_facts t Hs Hin Hout.
    eexists. split; [exact Hs|]. cbn [FILE.flags].
    now rewrite mode_flags_nord.
Qed.

(** C6: when the mode is accepted, the status query succeeds and the
    allocation succeeds, [__fdopen] returns the allocated object, which is
    not null; that object is what the last call of the run inserts into the
    registry of open streams, nothing else is inserted, and its four
    operation slots hold the descriptor-backed implementations. *)
Theorem fdopen_completes sys fd mode m :
  strchr "rwa" (deref mode) <> None ->
  0 <= queried sys fd m ->
  allocated sys fd m <> NULL ->
  let x := __fdopen fd mode sys m in
  retval x = allocated sys fd m /\
  retval x <> NULL /\
  (exists pre r, calls x = pre ++ [(Ofl_add (retval x), r)]) /\
  (forall p r, In (Ofl_add p, r) (calls x) -> p = retval x) /\
  exists s,
    stream_of x = Some s /\
    FILE.fd s = fd /\
    FILE.read s = __stdio_read /\
    FILE.write s = __stdio_write /\
    FILE.seek s = __stdio_seek /\
    FILE.close s = __stdio_close.
Proof.
  intros Hv Hq Ha x. subst x.
  rewrite fdopen_attached by assumption. rewrite attached_retval.
  split; [reflexivity|]. split; [assumption|]. split; [|split].
  - apply attached_registered.
  - intros p r Hin. apply attached_calls in Hin.
    destruct Hin as [E|[E|[[E _]|[[E _]|[E|E]]]]]; try discriminate E.
    now inversion E.
  - attached_stream_facts t Hs Hin Hout.
    eexists. split; [exact Hs|]. now cbn.
Qed.

(** C5: when the mode is accepted and the status query on the descriptor
    fails, [__fdopen] returns null and leaves the world as the failed query
    left it (so the error the query reported stands); the query is the only
    call of the run: nothing is allocated, no flag of the descriptor is
    set, no stream is inserted into the registry, and no object in memory
    is touched. *)
Theorem fdopen_query_failure sys fd mode m :
  strchr "rwa" (deref mode) <> None ->
  queried sys fd m < 0 ->
  let x := __fdopen fd mode sys m in
  retval x = NULL /\
  os (final x) = snd (sys (Fcntl fd F_GETFL) (os m)) /\
  mem (final x) = mem m /\
  calls x = [(Fcntl fd F_GETFL, queried sys fd m)] /\
  (forall n, ~ requested (Malloc n) x) /\
  (forall a, ~ requested (Fcntl fd (F_SETFD a)) x) /\
  (forall a, ~ requested (Fcntl fd (F_SETFL a)) x) /\
  (forall f, ~ requested (Ofl_add f) x).
Proof.
  intros Hv Hq x. subst x.
  rewrite fdopen_query_failed by assumption.
  cbn [retval final calls os mem]. repeat split.
  all: intros a [r [E|[]]]; discriminate E.
Qed.

(** C10: two mode strings that start with the same byte, and agree on
    whether they hold a ['+'] and on whether they hold an ['e'], give the
    same run on the same descriptor in the same state: the same calls with
    the same answers, the same final state, the same result. *)
Theorem fdopen_mode_facts sys fd mode1 mode2 m :
  deref mode1 = deref mode2 ->
  (strchr mode1 "+" = None <-> strchr mode2 "+" = None) ->
  (strchr mode1 "e" = None <-> strchr mode2 "e" = None) ->
  __fdopen fd mode1 sys m = __fdopen fd mode2 sys m.
Proof.
  intros Hc Hp He. rewrite !fdopen_run, Hc.
  assert (Hiff : forall (p q : option nat),
             (p = None <-> q = None) -> nonnull p = nonnull q).
  { intros [?|] [?|] [H1 H2]; cbn; trivial;
      [specialize (H2 eq_refl) | specialize (H1 eq_refl)]; discriminate. }
  now rewrite (Hiff _ _ Hp), (Hiff _ _ He).
Qed.

(** C4: in every stream a successful [__fdopen] returns, the sentinel is
    the line terminator exactly when the no-write bit is clear and the
    terminal query on the descriptor answered that it is a terminal; in
    every other case it is [EOF].  When the no-write bit is clear the
    query is made, and the answer is the handler's: a descriptor the
    handler reports as a terminal gets the line terminator, one it reports
    as no terminal gets [EOF]; when the no-write bit is set no query is
    made. *)
Theorem fdopen_line_buffering sys fd mode m :
  let x := __fdopen fd mode sys m in
  retval x <> NULL ->
  exists s,
    stream_of x = Some s /\
    (FILE.lbf s = 10 <->
       tst (FILE.flags s) F_NOWR = false /\
       exists r, In (Isatty fd, r) (calls x) /\ r <> 0) /\
    (FILE.lbf s <> 10 -> FILE.lbf s = EOF) /\
    (tst (FILE.flags s) F_NOWR = false ->
       exists w,
         In (Isatty fd, fst (sys (Isatty fd) w)) (calls x) /\
         (FILE.lbf s = 10 <-> fst (sys (Isatty fd) w) <> 0)) /\
    (tst (FILE.flags s) F_NOWR = true ->
       forall fd' r, ~ In (Isatty fd', r) (calls x)) /\
    ((forall w, fst (sys (Isatty fd) w) <> 0) ->
       tst (FILE.flags s) F_NOWR = false -> FILE.lbf s = 10) /\
    ((forall w, fst (sys (Isatty fd) w) = 0) -> FILE.lbf s = EOF).
Proof.
  intros x Hr. subst x.
  destruct (fdopen_nonnull _ _ _ _ Hr) as (Hv & Hq & Ha).
  rewrite fdopen_attached by assumption.
  match goal with
  | |- context [ attached_outcome ?fd ?c0 ?p ?e ?sys ?fl ?f ?w ?mm ] =>
      destruct (attached_tty fd c0 p e sys fl f w mm) as (w' & Hs & Hin & Hout)
  end.
  eexists. split; [exact Hs|]. cbn [FILE.flags FILE.lbf].
  pose proof eof_negative as Heof.
  destruct (tst (mode_flags (deref mode) (nonnull (strchr mode "+"))) F_NOWR)
    eqn:Hw; cbn [negb andb].
  - split; [|split; [|split; [|split; [|split]]]].
    + split; [lia|]. intros [? _]. discriminate.
    + reflexivity.
    + discriminate.
    + intros _ fd' r Hin'. destruct (Hout _ _ Hin') as [? _]. discriminate.
    + discriminate.
    + reflexivity.
  - specialize (Hin eq_refl).
    destruct (Z.eqb_spec (fst (sys (Isatty fd) w')) 0) as [Ht|Ht]; cbn [negb].
    + split; [|split; [|split; [|split; [|split]]]].
      * split; [lia|].
        intros (_ & r & Hr' & Hne). destruct (Hout _ _ Hr') as [_ ->].
        contradiction.
      * reflexivity.
      * intros _. exists w'. split; [exact Hin|]. split; [lia|]. contradiction.
      * discriminate.
      * intros Hall. now contradiction (Hall w').
      * reflexivity.
    + split; [|split; [|split; [|split; [|split]]]].
      * split; [|reflexivity]. intros _. split; [reflexivity|]. eauto.
      * congruence.
      * intros _. exists w'. split; [exact Hin|]. tauto.
      * discriminate.
      * reflexivity.
      * intros Hall. now contradiction Ht.
Qed.

(** C3, amended: a successful [__fdopen] sets the append bit of the stream
    exactly when the mode string starts with ['a'], whatever the
    descriptor's flags are and whatever any request answers.  For such a
    mode string: when the queried flags lack append, the run asks for the
    queried flags with append added to be set on the descriptor, and the
    descriptor's flags include append once the run is over provided that
    request succeeds and the collaborators honour it; when the queried
    flags hold append, the run asks for no status flags to be set, and the
    descriptor is still in append mode once the run is over provided the
    collaborators' other calls leave the flag alone. *)
Theorem fdopen_append_requested sys fd mode m :
  let x := __fdopen fd mode sys m in
  retval x <> NULL ->
  exists s,
    stream_of x = Some s /\
    (tst (FILE.flags s) F_APP = true <-> deref mode = "a"%char) /\
    (deref mode = "a"%char ->
       (tst (queried sys fd m) O_APPEND = false ->
          exists r,
            In (Fcntl fd (F_SETFL (Z.lor (queried sys fd m) O_APPEND)), r)
               (calls x) /\
            (honours_append sys fd -> 0 <= r ->
               appending sys fd (os (final x)))) /\
       (tst (queried sys fd m) O_APPEND = true ->
          (forall fd' a, ~ requested (Fcntl fd' (F_SETFL a)) x) /\
          (keeps_append sys fd -> appending sys fd (os (final x))))).
Proof.
  intros x Hr. subst x.
  destruct (fdopen_nonnull _ _ _ _ Hr) as (Hv & Hq & Ha).
  rewrite fdopen_attached by assumption.
  attached_stream_facts t Hs Hin Hout.
  eexists. split; [exact Hs|]. cbn [FILE.flags].
  rewrite mode_flags_app. split; [apply Ascii.eqb_eq|].
  intros Hmode. rewrite Hmode. split.
  - intros Hfl.
    match goal with
    | |- context [ attached_outcome ?fd ?c0 ?p ?e ?sys ?fl ?f ?w ?mm ] =>
        destruct (attached_append fd c0 p e sys fl f w mm eq_refl Hfl)
          as (r & Hin' & Hr')
    end.
    exists r. split; [exact Hin'|].
    intros Hh Hok. subst r.
    apply attached_appending; trivial. apply o_append_nonzero.
  - intros Hfl. split.
    + intros fd' a. now apply attached_no_setfl.
    + intros Hk. apply attached_keeps; [assumption..|].
      apply (Hk (Malloc _)); [reflexivity|].
      apply (Hk (Fcntl fd F_GETFL)); [reflexivity|].
      exact Hfl.
Qed.

End Claims.

Section Cloexec.
Context {W1 W2 : Type} `{Header}.
Variables (R : W1 -> W2 -> Prop) (sys1 : handler W1) (sys2 : handler W2).
Hypothesis Hsame : same_but_cloexec R sys1 sys2.

Lemma opt_call_related (b : bool) (c : syscall) (w1 : W1) (w2 : W2) :
  R w1 w2 -> R (snd (opt_call b c sys1 w1)) (snd (opt_call b c sys2 w2)).
Proof.
  intros Hw. destruct Hsame as [Hstep _].
  destruct b; cbn [opt_call snd]; auto.
Qed.

(** C7: for a mode string that holds an ['e'] (and is accepted, with a
    successful status query and allocation), [__fdopen] requests
    close-on-exec on the descriptor and never looks at the answer: against
    two behaviours of the collaborators that differ at most in how
    close-on-exec requests fare, it returns the same non-null address and
    builds the same objects in memory. *)
Theorem fdopen_cloexec_discarded fd mode (m1 : machine W1) (m2 : machine W2) :
  R (os m1) (os m2) ->
  mem m1 = mem m2 ->
  strchr mode "e" <> None ->
  strchr "rwa" (deref mode) <> None ->
  0 <= queried sys1 fd m1 ->
  allocated sys1 fd m1 <> NULL ->
  let x1 := __fdopen fd mode sys1 m1 in
  let x2 := __fdopen fd mode sys2 m2 in
  requested (Fcntl fd (F_SETFD FD_CLOEXEC)) x1 /\
  requested (Fcntl fd (F_SETFD FD_CLOEXEC)) x2 /\
  retval x1 <> NULL /\
  retval x2 = retval x1 /\
  mem (final x2) = mem (final x1) /\
  R (os (final x1)) (os (final x2)).
Proof.
  intros Hw Hmm He Hv Hq Ha x1 x2. subst x1 x2.
  destruct Hsame as [Hstep Hans].
  assert (Hq2 : queried sys2 fd m2 = queried sys1 fd m1).
  { unfold queried. symmetry. now apply Hans. }
  assert (Hw1 : R (snd (sys1 (Fcntl fd F_GETFL) (os m1)))
                  (snd (sys2 (Fcntl fd F_GETFL) (os m2)))) by now apply Hstep.
  assert (Ha2 : allocated sys2 fd m2 = allocated sys1 fd m1).
  { unfold allocated. symmetry. now apply Hans. }
  rewrite (fdopen_attached fd mode sys1) by assumption.
  rewrite (fdopen_attached fd mode sys2) by (rewrite ?Hq2, ?Ha2; assumption).
  rewrite Hq2, Ha2, Hmm.
  apply nonnull_true in He. rewrite He.
  split; [now apply attached_cloexec|].
  split; [now apply attached_cloexec|].
  split; [now rewrite attached_retval|].
  split; [reflexivity|].
  unfold attached_outcome. cbv zeta. cbn [final mem os].
  set (size := sizeof_FILE + UNGET + BUFSIZ).
  set (u1 := snd (sys1 (Malloc size) _)).
  set (u2 := snd (sys2 (Malloc size) _)).
  assert (Hu : R u1 u2) by now apply Hstep.
  set (c2 := Fcntl fd (F_SETFL _)).
  set (b2 := (Ascii.eqb (deref mode) "a" &&
              negb (tst (queried sys1 fd m1) O_APPEND))%bool).
  set (v1 := snd (opt_call b2 c2 sys1 _)).
  set (v2 := snd (opt_call b2 c2 sys2 _)).
  assert (Hv12 : R v1 v2) by now apply opt_call_related, opt_call_related.
  assert (Ht : fst (sys2 (Isatty fd) v2) = fst (sys1 (Isatty fd) v1)).
  { symmetry. now apply Hans. }
  rewrite Ht. split; [reflexivity|].
  now apply Hstep, opt_call_related.
Qed.

End Cloexec.

(** ** The reference world meets the assumptions *)

Module SimFacts.
Import Sim.

Lemma view_inv (w1 w2 : world) :
  view w1 = view w2 ->
  (forall fd,
     (fun d => (status d, tty d, fl_locked d)) <$> (fds w1 !! fd) =
     (fun d => (status d, tty d, fl_locked d)) <$> (fds w2 !! fd)) /\
  brk w1 = brk w2 /\ avail w1 = avail w2 /\ ofl w1 = ofl w2.
Proof.
  unfold view. intros E. injection E as Ef Eb Ea Eo.
  repeat split; trivial.
  intros fd. rewrite <- !lookup_fmap. now rewrite Ef.
Qed.

Lemma view_fail (e r : Z) (w : world) : view (snd (fail e r w)) = view w.
Proof. reflexivity. Qed.

(** Replacing a descriptor by one that differs in [cloexec] and
    [fd_locked] only is invisible. *)
Lemma view_with_fd (fd : Z) (d d' : fdesc) (w : world) :
  fds w !! fd = Some d ->
  status d' = status d -> tty d' = tty d -> fl_locked d' = fl_locked d ->
  view (with_fd fd d' w) = view w.
Proof.
  intros Hd Hs Ht Hl. unfold view, with_fd. cbn [fds brk avail ofl].
  rewrite fmap_insert, Hs, Ht, Hl.
  rewrite insert_id; [reflexivity|].
  now rewrite lookup_fmap, Hd.
Qed.

Lemma view_with_fd_congr (fd : Z) (d1 d2 : fdesc) (w1 w2 : world) :
  view w1 = view w2 ->
  status d1 = status d2 -> tty d1 = tty d2 -> fl_locked d1 = fl_locked d2 ->
  view (with_fd fd d1 w1) = view (with_fd fd d2 w2).
Proof.
  unfold view, with_fd. cbn [fds brk avail ofl].
  intros E Hs Ht Hl. injection E as Ef Eb Ea Eo.
  now rewrite !fmap_insert, Hs, Ht, Hl, Ef, Eb, Ea, Eo.
Qed.

Section Kernel.
Context `{Header}.

Lemma kernel_related (c : syscall) (w1 w2 : world) :
  view w1 = view w2 -> view (snd (kernel c w1)) = view (snd (kernel c w2)).
Proof.
  intros E. destruct (view_inv _ _ E) as (Ef & Eb & Ea & Eo).
  destruct c as [fd cmd|size|fd|f|e]; cbn [kernel].
  - specialize (Ef fd).
    destruct (fds w1 !! fd) as [d1|] eqn:E1, (fds w2 !! fd) as [d2|] eqn:E2;
      try discriminate Ef; [|now rewrite !view_fail].
    injection Ef as Es Et El.
    destruct cmd as [|arg|arg].
    + exact E.
    + destruct (fd_locked d1), (fd_locked d2);
        rewrite ?view_fail; cbn [snd];
        rewrite ?(view_with_fd _ _ _ _ E1), ?(view_with_fd _ _ _ _ E2);
        trivial.
    + rewrite El. destruct (fl_locked d2); [now rewrite !view_fail|].
      cbn [snd]. now apply view_with_fd_congr.
  - rewrite Ea. destruct (size <=? avail w2); [|now rewrite !view_fail].
    cbn [snd]. unfold view in *. cbn [fds brk avail ofl].
    injection E as -> _ _ _. now rewrite ?Eb, ?Ea, ?Eo.
  - specialize (Ef fd).
    destruct (fds w1 !! fd) as [d1|], (fds w2 !! fd) as [d2|];
      try discriminate Ef; [|now rewrite !view_fail].
    injection Ef as _ Et _. rewrite Et.
    destruct (tty d2); [exact E | now rewrite !view_fail].
  - cbn [snd]. unfold view in *. cbn [fds brk avail ofl].
    injection E as -> _ _ _. now rewrite ?Eb, ?Ea, ?Eo.
  - exact E.
Qed.

Lemma kernel_answers (c : syscall) (w1 w2 : world) :
  view w1 = view w2 -> is_setfd c = false ->
  fst (kernel c w1) = fst (kernel c w2).
Proof.
  intros E Hc. destruct (view_inv _ _ E) as (Ef & Eb & Ea & Eo).
  destruct c as [fd cmd|size|fd|f|e]; cbn [kernel].
  - specialize (Ef fd).
    destruct (fds w1 !! fd) as [d1|], (fds w2 !! fd) as [d2|];
      try discriminate Ef; [|reflexivity].
    injection Ef as Es Et El.
    destruct cmd as [|arg|arg]; [exact Es | discriminate Hc |].
    rewrite El. now destruct (fl_locked d2).
  - rewrite Ea, Eb. now destruct (size <=? avail w2).
  - specialize (Ef fd).
    destruct (fds w1 !! fd) as [d1|], (fds w2 !! fd) as [d2|];
      try discriminate Ef; [|reflexivity].
    injection Ef as _ Et _. rewrite Et. now destruct (tty d2).
  - reflexivity.
  - reflexivity.
Qed.

Lemma kernel_same_but_cloexec :
  same_but_cloexec (fun w1 w2 => view w1 = view w2) kernel kernel.
Proof. split; [exact kernel_related | exact kernel_answers]. Qed.

(** What a status query answers depends on the table of descriptors
    only. *)
Lemma kernel_appending (fd : Z) (w w' : world) :
  fds w' = fds w -> appending kernel fd w -> appending kernel fd w'.
Proof.
  unfold appending. cbn [kernel]. intros ->.
  now destruct (fds w !! fd).
Qed.

Lemma kernel_honours_append (fd : Z) : honours_append kernel fd.
Proof.
  split; [|split].
  - intros a w Ha. unfold appending. cbn [kernel].
    destruct (fds w !! fd) as [d|] eqn:E; [|cbn; lia].
    destruct (fl_locked d); [cbn; lia|]. intros _.
    cbn [snd with_fd fds]. rewrite lookup_insert_eq. exact Ha.
  - intros fd' w. apply kernel_appending. cbn [kernel].
    destruct (fds w !! fd') as [d|]; [|reflexivity].
    now destruct (tty d).
  - intros f w. now apply kernel_appending.
Qed.

Lemma kernel_keeps_append (fd : Z) : keeps_append kernel fd.
Proof.
  intros c w Hc Happ.
  destruct c as [fd' cmd|size|fd'|f|e].
  - destruct cmd as [|arg|arg]; [| |discriminate Hc].
    + apply (kernel_appending fd w); [|exact Happ].
      cbn [kernel]. now destruct (fds w !! fd').
    + cbn [kernel].
      destruct (fds w !! fd') as [d'|] eqn:E';
        [|now apply (kernel_appending fd w)].
      destruct (fd_locked d'); [now apply (kernel_appending fd w)|].
      unfold appending in *. cbn [kernel snd with_fd fds] in *.
      destruct (Z.eq_dec fd' fd) as [->|Hne].
      * rewrite lookup_insert_eq. now rewrite E' in Happ.
      * rewrite lookup_insert_ne by assumption.
        now destruct (fds w !! fd).
  - apply (kernel_appending fd w); [|exact Happ].
    cbn [kernel]. now destruct (size <=? avail w).
  - apply (kernel_appending fd w); [|exact Happ].
    cbn [kernel]. destruct (fds w !! fd') as [d'|]; [|reflexivity].
    now destruct (tty d').
  - now apply (kernel_appending fd w).
  - now apply (kernel_appending fd w).
Qed.

End Kernel.

End SimFacts.

(** ** Runs in the reference world *)

Section Examples.
Import Sim.

(** Mode ["r"] on a regular file: the stream may not be written, no
    terminal query is made and the stream is not line buffered. *)
Example fdopen_r_regular :
  let x := __fdopen 3 "r" kernel m0 in
  retval x = 4096 /\
  calls x = [(Fcntl 3 F_GETFL, 2); (Malloc 1264, 4096); (Ofl_add 4096, 4096)] /\
  stream_of x =
    Some (FILE.mk F_NOWR 3 4336 1024 EOF
            __stdio_read __stdio_write __stdio_seek __stdio_close).
Proof. vm_compute. repeat split. Qed.

(** Mode ["a+e"] on a regular file not yet in append mode: close-on-exec
    and append are requested, the stream is read-write with its append bit
    set, and the descriptor ends up in append mode with close-on-exec. *)
Example fdopen_a_plus_e_regular :
  let x := __fdopen 3 "a+e" kernel m0 in
  retval x = 4096 /\
  calls x = [(Fcntl 3 F_GETFL, 2); (Malloc 1264, 4096);
             (Fcntl 3 (F_SETFD 1), 0); (Fcntl 3 (F_SETFL 1026), 0);
             (Isatty 3, 0); (Ofl_add 4096, 4096)] /\
  stream_of x =
    Some (FILE.mk F_APP 3 4336 1024 EOF
            __stdio_read __stdio_write __stdio_seek __stdio_close) /\
  fds (os (final x)) !! 3 = Some (Fdesc 1026 true false false false) /\
  ofl (os (final x)) = [4096].
Proof. vm_compute. repeat split. Qed.

(** A terminal opened for writing is line buffered. *)
Example fdopen_w_terminal :
  let x := __fdopen 0 "w" kernel m0 in
  calls x = [(Fcntl 0 F_GETFL, 2); (Malloc 1264, 4096);
             (Isatty 0, 1); (Ofl_add 4096, 4096)] /\
  stream_of x =
    Some (FILE.mk F_NORD 0 4336 1024 10
            __stdio_read __stdio_write __stdio_seek __stdio_close).
Proof. vm_compute. repeat split. Qed.

(** An invalid first character: [errno] is set, nothing else happens. *)
Example fdopen_x_rejected :
  __fdopen 3 "x+" kernel m0 =
  Outcome NULL (Machine (World fdtab EINVAL 4096 65536 []) ∅)
    [(Errno EINVAL, 0)].
Proof. vm_compute. reflexivity. Qed.

(** With the arena exhausted the allocation fails: null is returned, the
    descriptors are as before and no stream is registered. *)
Example fdopen_no_memory :
  __fdopen 3 "we" kernel (Machine w_full ∅) =
  Outcome NULL (Machine (World fdtab ENOMEM 4096 0 []) ∅)
    [(Fcntl 3 F_GETFL, 2); (Malloc 1264, NULL)].
Proof. vm_compute. reflexivity. Qed.

(** C1: the empty mode string, whose first byte is none of ['r'], ['w'],
    ['a'], is not rejected: on the open descriptor 3 [__fdopen] raises no
    invalid-argument error, allocates, and returns a stream. *)
Theorem fdopen_empty_mode_accepted :
  let x := __fdopen 3 "" kernel m0 in
  deref "" <> "r"%char /\ deref "" <> "w"%char /\ deref "" <> "a"%char /\
  retval x = 4096 /\
  calls x = [(Fcntl 3 F_GETFL, 2); (Malloc 1264, 4096);
             (Isatty 3, 0); (Ofl_add 4096, 4096)] /\
  stream_of x =
    Some (FILE.mk F_NORD 3 4336 1024 EOF
            __stdio_read __stdio_write __stdio_seek __stdio_close).
Proof. vm_compute. repeat split; discriminate. Qed.

(** C3 as stated fails: descriptor 5 refuses changes of its status flags;
    [__fdopen 5 "a"] succeeds and sets the append bit of the stream, and
    the descriptor is still not in append mode afterwards. *)
Lemma append_not_coupled : ~ append_coupled kernel 5 "a" m0.
Proof.
  unfold append_coupled. cbv zeta. intros Hc.
  destruct Hc as [Happ _].
  - reflexivity.
  - reflexivity.
  - vm_compute. discriminate.
  - vm_compute in Happ. discriminate Happ.
Qed.

Lemma fdopen_buffer_layout_witness :
  let x := __fdopen 3 "r" kernel m0 in
  retval x <> NULL /\
  exists s,
    stream_of x = Some s /\
    FILE.buf s = retval x + sizeof_FILE + UNGET /\
    FILE.buf_size s = BUFSIZ /\
    In (Malloc (sizeof_FILE + UNGET + BUFSIZ), retval x) (calls x).
Proof.
  assert (Hr : retval (__fdopen 3 "r" kernel m0) <> NULL)
    by (vm_compute; discriminate).
  split; [exact Hr|].
  exact (fdopen_buffer_layout kernel 3 "r" m0 Hr).
Defined.

Lemma fdopen_direction_flags_witness :
  let x := __fdopen 3 "w" kernel m0 in
  HeaderOk musl /\
  retval x <> NULL /\
  exists s,
    stream_of x = Some s /\
    (strchr "w" "+" = None ->
       xorb (tst (FILE.flags s) F_NORD) (tst (FILE.flags s) F_NOWR) = true /\
       (deref "w" = "r"%char -> tst (FILE.flags s) F_NOWR = true) /\
       (deref "w" = "w"%char \/ deref "w" = "a"%char ->
          tst (FILE.flags s) F_NORD = true)) /\
    (strchr "w" "+" <> None ->
       tst (FILE.flags s) F_NORD = false /\ tst (FILE.flags s) F_NOWR = false) /\
    tst (FILE.flags s) F_NORD && tst (FILE.flags s) F_NOWR = false.
Proof.
  assert (Hr : retval (__fdopen 3 "w" kernel m0) <> NULL)
    by (vm_compute; discriminate).
  split; [exact musl_ok|]. split; [exact Hr|].
  exact (fdopen_direction_flags (HOk := musl_ok) kernel 3 "w" m0 Hr).
Defined.

Lemma fdopen_empty_mode_witness :
  let x := __fdopen 3 "" kernel m0 in
  HeaderOk musl /\
  0 <= queried kernel 3 m0 /\
  allocated kernel 3 m0 <> NULL /\
  strchr "rwa" (deref "") = Some 3%nat /\
  (forall e, ~ requested (Errno e) x) /\
  retval x <> NULL /\
  exists s, stream_of x = Some s /\ tst (FILE.flags s) F_NORD = true.
Proof.
  assert (Hq : 0 <= queried kernel 3 m0) by (vm_compute; discriminate).
  assert (Ha : allocated kernel 3 m0 <> NULL) by (vm_compute; discriminate).
  split; [exact musl_ok|]. split; [exact Hq|]. split; [exact Ha|].
  exact (fdopen_empty_mode (HOk := musl_ok) kernel 3 m0 Hq Ha).
Defined.

Lemma fdopen_completes_witness :
  let x := __fdopen 3 "a+e" kernel m0 in
  strchr "rwa" (deref "a+e") <> None /\
  0 <= queried kernel 3 m0 /\
  allocated kernel 3 m0 <> NULL /\
  retval x = allocated kernel 3 m0 /\
  retval x <> NULL /\
  (exists pre r, calls x = pre ++ [(Ofl_add (retval x), r)]) /\
  (forall p r, In (Ofl_add p, r) (calls x) -> p = retval x) /\
  exists s,
    stream_of x = Some s /\
    FILE.fd s = 3 /\
    FILE.read s = __stdio_read /\
    FILE.write s = __stdio_write /\
    FILE.seek s = __stdio_seek /\
    FILE.close s = __stdio_close.
Proof.
  assert (Hv : strchr "rwa" (deref "a+e") <> None) by (vm_compute; discriminate).
  assert (Hq : 0 <= queried kernel 3 m0) by (vm_compute; discriminate).
  assert (Ha : allocated kernel 3 m0 <> NULL) by (vm_compute; discriminate).
  split; [exact Hv|]. split; [exact Hq|]. split; [exact Ha|].
  exact (fdopen_completes kernel 3 "a+e" m0 Hv Hq Ha).
Defined.

Lemma fdopen_query_failure_witness :
  let x := __fdopen 7 "r" kernel m0 in
  strchr "rwa" (deref "r") <> None /\
  queried kernel 7 m0 < 0 /\
  retval x = NULL /\
  os (final x) = snd (kernel (Fcntl 7 F_GETFL) (os m0)) /\
  mem (final x) = mem m0 /\
  calls x = [(Fcntl 7 F_GETFL, queried kernel 7 m0)] /\
  (forall n, ~ requested (Malloc n) x) /\
  (forall a, ~ requested (Fcntl 7 (F_SETFD a)) x) /\
  (forall a, ~ requested (Fcntl 7 (F_SETFL a)) x) /\
  (forall f, ~ requested (Ofl_add f) x).
Proof.
  assert (Hv : strchr "rwa" (deref "r") <> None) by (vm_compute; discriminate).
  assert (Hq : queried kernel 7 m0 < 0) by (vm_compute; reflexivity).
  split; [exact Hv|]. split; [exact Hq|].
  exact (fdopen_query_failure kernel 7 "r" m0 Hv Hq).
Defined.

Lemma fdopen_mode_facts_witness :
  deref "w+" = deref "wbx+" /\
  (strchr "w+" "+" = None <-> strchr "wbx+" "+" = None) /\
  (strchr "w+" "e" = None <-> strchr "wbx+" "e" = None) /\
  __fdopen 0 "w+" kernel m0 = __fdopen 0 "wbx+" kernel m0.
Proof.
  assert (Hc : deref "w+" = deref "wbx+") by reflexivity.
  assert (Hp : strchr "w+" "+" = None <-> strchr "wbx+" "+" = None)
    by (vm_compute; split; discriminate).
  assert (He : strchr "w+" "e" = None <-> strchr "wbx+" "e" = None)
    by (vm_compute; split; reflexivity).
  split; [exact Hc|]. split; [exact Hp|]. split; [exact He|].
  exact (fdopen_mode_facts kernel 0 "w+" "wbx+" m0 Hc Hp He).
Defined.

Lemma fdopen_line_buffering_witness :
  let x := __fdopen 0 "w" kernel m0 in
  HeaderOk musl /\
  retval x <> NULL /\
  stream_of x =
    Some (FILE.mk F_NORD 0 4336 1024 10
            __stdio_read __stdio_write __stdio_seek __stdio_close) /\
  exists s,
    stream_of x = Some s /\
    (FILE.lbf s = 10 <->
       tst (FILE.flags s) F_NOWR = false /\
       exists r, In (Isatty 0, r) (calls x) /\ r <> 0) /\
    (FILE.lbf s <> 10 -> FILE.lbf s = EOF) /\
    (tst (FILE.flags s) F_NOWR = false ->
       exists w,
         In (Isatty 0, fst (kernel (Isatty 0) w)) (calls x) /\
         (FILE.lbf s = 10 <-> fst (kernel (Isatty 0) w) <> 0)) /\
    (tst (FILE.flags s) F_NOWR = true ->
       forall fd' r, ~ In (Isatty fd', r) (calls x)) /\
    ((forall w, fst (kernel (Isatty 0) w) <> 0) ->
       tst (FILE.flags s) F_NOWR = false -> FILE.lbf s = 10) /\
    ((forall w, fst (kernel (Isatty 0) w) = 0) -> FILE.lbf s = EOF).
Proof.
  assert (Hr : retval (__fdopen 0 "w" kernel m0) <> NULL)
    by (vm_compute; discriminate).
  split; [exact musl_ok|]. split; [exact Hr|]. split; [reflexivity|].
  exact (fdopen_line_buffering (HOk := musl_ok) kernel 0 "w" m0 Hr).
Defined.

Lemma fdopen_append_requested_witness :
  let x3 := __fdopen 3 "a" kernel m0 in
  let x4 := __fdopen 4 "a" kernel m0 in
  let claim := fun fd (x : outcome world Z) =>
    exists s,
      stream_of x = Some s /\
      (tst (FILE.flags s) F_APP = true <-> deref "a" = "a"%char) /\
      (deref "a" = "a"%char ->
         (tst (queried kernel fd m0) O_APPEND = false ->
            exists r,
              In (Fcntl fd (F_SETFL (Z.lor (queried kernel fd m0) O_APPEND)), r)
                 (calls x) /\
              (honours_append kernel fd -> 0 <= r ->
                 appending kernel fd (os (final x)))) /\
         (tst (queried kernel fd m0) O_APPEND = true ->
            (forall fd' a, ~ requested (Fcntl fd' (F_SETFL a)) x) /\
            (keeps_append kernel fd -> appending kernel fd (os (final x))))) in
  HeaderOk musl /\
  retval x3 <> NULL /\ retval x4 <> NULL /\
  tst (queried kernel 3 m0) O_APPEND = false /\
  tst (queried kernel 4 m0) O_APPEND = true /\
  honours_append kernel 3 /\ keeps_append kernel 4 /\
  In (Fcntl 3 (F_SETFL 1026), 0) (calls x3) /\
  appending kernel 3 (os (final x3)) /\
  appending kernel 4 (os (final x4)) /\
  claim 3 x3 /\ claim 4 x4.
Proof.
  assert (Hr3 : retval (__fdopen 3 "a" kernel m0) <> NULL)
    by (vm_compute; discriminate).
  assert (Hr4 : retval (__fdopen 4 "a" kernel m0) <> NULL)
    by (vm_compute; discriminate).
  split; [exact musl_ok|]. split; [exact Hr3|]. split; [exact Hr4|].
  split; [reflexivity|]. split; [reflexivity|].
  split; [apply SimFacts.kernel_honours_append|].
  split; [apply SimFacts.kernel_keeps_append|].
  split; [vm_compute; tauto|].
  split; [reflexivity|]. split; [reflexivity|].
  split.
  - exact (fdopen_append_requested (HOk := musl_ok) kernel 3 "a" m0 Hr3).
  - exact (fdopen_append_requested (HOk := musl_ok) kernel 4 "a" m0 Hr4).
Defined.

Lemma fdopen_cloexec_discarded_witness :
  let R := fun w1 w2 : world => view w1 = view w2 in
  let x1 := __fdopen 3 "re" kernel m0 in
  let x2 := __fdopen 3 "re" kernel m_locked in
  same_but_cloexec R kernel kernel /\
  R (os m0) (os m_locked) /\
  mem m0 = mem m_locked /\
  strchr "re" "e" <> None /\
  strchr "rwa" (deref "re") <> None /\
  0 <= queried kernel 3 m0 /\
  allocated kernel 3 m0 <> NULL /\
  fst (kernel (Fcntl 3 (F_SETFD FD_CLOEXEC)) w0) = 0 /\
  fst (kernel (Fcntl 3 (F_SETFD FD_CLOEXEC)) w_locked) = -1 /\
  requested (Fcntl 3 (F_SETFD FD_CLOEXEC)) x1 /\
  requested (Fcntl 3 (F_SETFD FD_CLOEXEC)) x2 /\
  retval x1 <> NULL /\
  retval x2 = retval x1 /\
  mem (final x2) = mem (final x1) /\
  R (os (final x1)) (os (final x2)).
Proof.
  intros R.
  assert (Hs : same_but_cloexec R kernel kernel)
    by apply SimFacts.kernel_same_but_cloexec.
  assert (Hw : R (os m0) (os m_locked)) by (vm_compute; reflexivity).
  assert (Hmm : mem m0 = mem m_locked) by reflexivity.
  assert (He : strchr "re" "e" <> None) by (vm_compute; discriminate).
  assert (Hv : strchr "rwa" (deref "re") <> None) by (vm_compute; discriminate).
  assert (Hq : 0 <= queried kernel 3 m0) by (vm_compute; discriminate).
  assert (Ha : allocated kernel 3 m0 <> NULL) by (vm_compute; discriminate).
  split; [exact Hs|]. split; [exact Hw|]. split; [exact Hmm|].
  split; [exact He|]. split; [exact Hv|]. split; [exact Hq|].
  split; [exact Ha|]. split; [reflexivity|]. split; [reflexivity|].
  exact (fdopen_cloexec_discarded R kernel kernel Hs 3 "re" m0 m_locked
           Hw Hmm He Hv Hq Ha).
Defined.

End Examples.

(** ** Further properties of [__fdopen] *)

Section Exits4.
Context {W : Type} `{Header}.
Implicit Types (sys : handler W) (m : machine W) (fd : Z) (mode : string).

(** Every run leaves by one of the four exits. *)
Lemma fdopen_exits fd mode sys m :
  let x := __fdopen fd mode sys m in
  (strchr "rwa" (deref mode) = None /\
   x = Outcome NULL (Machine (snd (sys (Errno EINVAL) (os m))) (mem m))
         [(Errno EINVAL, fst (sys (Errno EINVAL) (os m)))]) \/
  (strchr "rwa" (deref mode) <> None /\ queried sys fd m < 0 /\
   x = Outcome NULL (Machine (snd (sys (Fcntl fd F_GETFL) (os m))) (mem m))
         [(Fcntl fd F_GETFL, queried sys fd m)]) \/
  (strchr "rwa" (deref mode) <> None /\ 0 <= queried sys fd m /\
   allocated sys fd m = NULL /\
   x = Outcome NULL
         (Machine (snd (sys (Malloc (sizeof_FILE + UNGET + BUFSIZ))
                          (snd (sys (Fcntl fd F_GETFL) (os m))))) (mem m))
         [(Fcntl fd F_GETFL, queried sys fd m);
          (Malloc (sizeof_FILE + UNGET + BUFSIZ), NULL)]) \/
  (strchr "rwa" (deref mode) <> None /\ 0 <= queried sys fd m /\
   allocated sys fd m <> NULL /\
   x = attached_outcome fd (deref mode) (nonnull (strchr mode "+"))
         (nonnull (strchr mode "e")) sys (queried sys fd m) (allocated sys fd m)
         (snd (sys (Malloc (sizeof_FILE + UNGET + BUFSIZ))
                 (snd (sys (Fcntl fd F_GETFL) (os m))))) (mem m)).
Proof.
  cbv zeta.
  destruct (strchr "rwa" (deref mode)) eqn:Hv.
  2:{ left. split; [reflexivity|]. now apply fdopen_rejected. }
  assert (Hv' : strchr "rwa" (deref mode) <> None) by congruence.
  rewrite <- Hv. right.
  destruct (Z.lt_ge_cases (queried sys fd m) 0) as [Hq|Hq].
  { left. split; [assumption|]. split; [assumption|].
    now apply fdopen_query_failed. }
  right.
  destruct (Z.eq_dec (allocated sys fd m) NULL) as [Ha|Ha].
  { left. repeat (split; [assumption|]). now apply fdopen_alloc_failed. }
  right. repeat (split; [assumption|]). now apply fdopen_attached.
Qed.

End Exits4.

(** Splits the goal along the four exits of the run [__fdopen fd mode sys m]
    and rewrites the run to what each exit gives. *)
Ltac by_exit fd mode sys m :=
  let Hv := fresh "Hv" in
  let Hq := fresh "Hq" in
  let Ha := fresh "Ha" in
  let E := fresh "E" in
  destruct (fdopen_exits fd mode sys m)
    as [[Hv E]|[(Hv & Hq & E)|[(Hv & Hq & Ha & E)|(Hv & Hq & Ha & E)]]];
  rewrite E; clear E.

Section AttachedCalls.
Context {W : Type} `{Header}.
Variables (fd : Z) (c0 : ascii) (plus e : bool) (sys : handler W).
Variables (flags f : Z) (w : W) (mm : gmap Z FILE.t).

Local Abbreviation x := (attached_outcome fd c0 plus e sys flags f w mm).

Lemma attached_isatty :
  tst (mode_flags c0 plus) F_NOWR = false -> requested (Isatty fd) x.
Proof.
  intros Hw.
  destruct (attached_stream fd c0 plus e sys flags f w mm) as (t & _ & Hin & _).
  exists t. now apply Hin.
Qed.

Lemma attached_ofl_add : requested (Ofl_add f) x.
Proof.
  destruct (attached_registered fd c0 plus e sys flags f w mm) as (pre & r & E).
  exists r. rewrite E, in_app_iff. right. now left.
Qed.

(** The calls of the run, in the order they are made. *)
Lemma attached_order :
  map fst (calls x) `sublist_of`
    [Fcntl fd F_GETFL; Malloc (sizeof_FILE + UNGET + BUFSIZ);
     Fcntl fd (F_SETFD FD_CLOEXEC);
     Fcntl fd (F_SETFL (Z.lor flags O_APPEND)); Isatty fd; Ofl_add f].
Proof.
  unfold attached_outcome, opt_call. cbv zeta. cbn [calls].
  destruct e, (Ascii.eqb c0 "a" && negb (tst flags O_APPEND))%bool,
    (negb (tst (mode_flags c0 plus) F_NOWR)); cbn;
    repeat first [ apply sublist_nil | apply sublist_skip | apply sublist_cons ].
Qed.

Lemma attached_mem_other (p : Z) : p <> f -> mem (final x) !! p = mm !! p.
Proof.
  intros Hp. unfold attached_outcome. cbv zeta. cbn [final mem].
  now rewrite lookup_insert_ne.
Qed.

End AttachedCalls.

Section Requests.
Context {W : Type} `{Header}.
Implicit Types (sys : handler W) (m : machine W) (fd : Z) (mode : string).

(** What a request to set status flags tells about the run that made it. *)
Lemma fdopen_setfl_inv sys fd mode m fd' a :
  requested (Fcntl fd' (F_SETFL a)) (__fdopen fd mode sys m) ->
  fd' = fd /\ retval (__fdopen fd mode sys m) <> NULL /\
  deref mode = "a"%char /\
  tst (queried sys fd m) O_APPEND = false /\
  a = Z.lor (queried sys fd m) O_APPEND.
Proof.
  by_exit fd mode sys m.
  1-3: intros [r Hin]; cbn in Hin; intuition discriminate.
  rewrite attached_retval.
  intros [r Hin]. apply attached_calls in Hin.
  destruct Hin as [E|[E|[[E _]|[[E [Hm ?]]|[E|E]]]]]; try discriminate E.
  inversion E. apply Ascii.eqb_eq in Hm. auto.
Qed.

End Requests.

Section Extras.
Context {W : Type} `{HOk : HeaderOk}.
Implicit Types (sys : handler W) (m : machine W) (fd : Z) (mode : string).

(** X1: a run that returns null leaves no trace: the objects in memory are
    as before, no flag of any descriptor was set, no terminal query was made
    and nothing was inserted into the registry of open streams. *)
Theorem fdopen_failure_no_trace sys fd mode m :
  let x := __fdopen fd mode sys m in
  retval x = NULL ->
  mem (final x) = mem m /\
  (forall fd' a, ~ requested (Fcntl fd' (F_SETFD a)) x) /\
  (forall fd' a, ~ requested (Fcntl fd' (F_SETFL a)) x) /\
  (forall fd', ~ requested (Isatty fd') x) /\
  (forall p, ~ requested (Ofl_add p) x).
Proof.
  cbv zeta. by_exit fd mode sys m; cbn [retval final calls mem]; intros Hr.
  4:{ rewrite attached_retval in Hr. contradiction. }
  all: repeat split; try reflexivity.
  all: intros; intros [r Hin]; cbn in Hin; intuition discriminate.
Qed.

(** X2: when the allocation fails after an accepted mode and a successful
    status query, [__fdopen] returns null after exactly two calls, the query
    and the allocation; it stores no [errno] of its own, and memory and the
    world are as the allocator left them. *)
Theorem fdopen_alloc_failure sys fd mode m :
  strchr "rwa" (deref mode) <> None ->
  0 <= queried sys fd m ->
  allocated sys fd m = NULL ->
  let x := __fdopen fd mode sys m in
  retval x = NULL /\
  calls x = [(Fcntl fd F_GETFL, queried sys fd m);
             (Malloc (sizeof_FILE + UNGET + BUFSIZ), NULL)] /\
  os (final x) = snd (sys (Malloc (sizeof_FILE + UNGET + BUFSIZ))
                        (snd (sys (Fcntl fd F_GETFL) (os m)))) /\
  mem (final x) = mem m /\
  (forall e, ~ requested (Errno e) x).
Proof.
  intros Hv Hq Ha x. subst x.
  rewrite fdopen_alloc_failed by assumption.
  cbn [retval final calls os mem]. repeat split.
  intros e [r Hin]. cbn in Hin. intuition discriminate.
Qed.

(** X3: a mode string that starts with a byte other than ['r'], ['w'],
    ['a'] and the terminator is rejected: [__fdopen] stores [EINVAL] in
    [errno], makes no other call, touches no object and returns null. *)
Theorem fdopen_invalid_mode sys fd mode m :
  deref mode <> "r"%char -> deref mode <> "w"%char ->
  deref mode <> "a"%char -> deref mode <> NUL ->
  let x := __fdopen fd mode sys m in
  retval x = NULL /\
  calls x = [(Errno EINVAL, fst (sys (Errno EINVAL) (os m)))] /\
  os (final x) = snd (sys (Errno EINVAL) (os m)) /\
  mem (final x) = mem m.
Proof.
  intros Hr Hw Ha Hn x. subst x.
  assert (Hv : strchr "rwa" (deref mode) = None).
  { destruct (strchr "rwa" (deref mode)) eqn:E; [|reflexivity].
    assert (Hs : strchr "rwa" (deref mode) <> None) by congruence.
    apply strchr_rwa in Hs. tauto. }
  rewrite fdopen_rejected by assumption. now cbn.
Qed.

(** X4: the calls of a run are made in a fixed order: either the run is the
    single store of [EINVAL], or its calls are, in this order and each at
    most once, the status query, the allocation, the close-on-exec request,
    the append request, the terminal query and the insertion into the
    registry.  So a run allocates at most once and calls [fcntl] at most
    three times, and sets no flag before the query and the allocation. *)
Theorem fdopen_calls_in_order sys fd mode m :
  let x := __fdopen fd mode sys m in
  map fst (calls x) = [Errno EINVAL] \/
  map fst (calls x) `sublist_of`
    [Fcntl fd F_GETFL; Malloc (sizeof_FILE + UNGET + BUFSIZ);
     Fcntl fd (F_SETFD FD_CLOEXEC);
     Fcntl fd (F_SETFL (Z.lor (queried sys fd m) O_APPEND));
     Isatty fd; Ofl_add (allocated sys fd m)].
Proof.
  cbv zeta. by_exit fd mode sys m.
  - now left.
  - right. cbn.
    repeat first [ apply sublist_nil | apply sublist_skip | apply sublist_cons ].
  - right. cbn.
    repeat first [ apply sublist_nil | apply sublist_skip | apply sublist_cons ].
  - right. apply attached_order.
Qed.

(** X5: in every stream a successful [__fdopen] returns, the append bit is
    set exactly when the mode string starts with ['a']: an ['a'] later in
    the string does not make the stream an append stream. *)
Theorem fdopen_append_bit_iff sys fd mode m :
  let x := __fdopen fd mode sys m in
  retval x <> NULL ->
  exists s,
    stream_of x = Some s /\
    (tst (FILE.flags s) F_APP = true <-> deref mode = "a"%char).
Proof.
  intros x Hr. subst x.
  destruct (fdopen_nonnull _ _ _ _ Hr) as (Hv & Hq & Ha).
  rewrite fdopen_attached by assumption.
  attached_stream_facts t Hs Hin Hout.
  eexists. split; [exact Hs|]. cbn [FILE.flags].
  rewrite mode_flags_app. apply Ascii.eqb_eq.
Qed.

(** X6: [__fdopen] asks for status flags to be set exactly when it returns
    a stream, the mode string starts with ['a'] and the queried flags lack
    append; the request is on the descriptor attached, and the value it
    sets is the queried flags with append added, so no flag the query
    reported is cleared. *)
Theorem fdopen_setfl_iff sys fd mode m fd' a :
  let x := __fdopen fd mode sys m in
  (requested (Fcntl fd' (F_SETFL a)) x <->
     fd' = fd /\ retval x <> NULL /\ deref mode = "a"%char /\
     tst (queried sys fd m) O_APPEND = false /\
     a = Z.lor (queried sys fd m) O_APPEND) /\
  (requested (Fcntl fd' (F_SETFL a)) x ->
     forall n, Z.testbit (queried sys fd m) n = true -> Z.testbit a n = true).
Proof.
  cbv zeta.
  split; [split|].
  - apply fdopen_setfl_inv.
  - intros (-> & Hr & Hm & Hfl & ->).
    destruct (fdopen_nonnull _ _ _ _ Hr) as (Hv & Hq & Ha).
    rewrite fdopen_attached by assumption.
    apply Ascii.eqb_eq in Hm.
    match goal with
    | |- context [ attached_outcome ?fd ?c0 ?p ?e ?sys ?fl ?f ?w ?mm ] =>
        destruct (attached_append fd c0 p e sys fl f w mm Hm Hfl) as (r & Hin & _)
    end.
    now exists r.
  - intros Hreq n Hn.
    destruct (fdopen_setfl_inv _ _ _ _ _ _ Hreq) as (_ & _ & _ & _ & ->).
    rewrite Z.lor_spec, Hn. reflexivity.
Qed.

(** X7: [__fdopen] asks for descriptor flags to be set exactly when it
    returns a stream and the mode string holds an ['e']; the request is on
    the descriptor attached and sets [FD_CLOEXEC] and nothing else. *)
Theorem fdopen_setfd_iff sys fd mode m fd' a :
  let x := __fdopen fd mode sys m in
  requested (Fcntl fd' (F_SETFD a)) x <->
  fd' = fd /\ retval x <> NULL /\ strchr mode "e" <> None /\ a = FD_CLOEXEC.
Proof.
  cbv zeta. by_exit fd mode sys m.
  1-3: split; cbn [retval];
    [ intros [r Hin]; cbn in Hin; intuition discriminate
    | intros (_ & Hr & _); now contradiction Hr ].
  rewrite attached_retval. split.
  - intros [r Hin]. apply attached_calls in Hin.
    destruct Hin as [E|[E|[[E He]|[[E _]|[E|E]]]]]; try discriminate E.
    inversion E. apply nonnull_true in He. auto.
  - intros (-> & _ & He & ->). apply nonnull_true in He.
    now apply attached_cloexec.
Qed.

(** X8: [__fdopen] asks whether a descriptor is a terminal exactly when it
    returns a stream that may be written, that is when the mode string
    holds a ['+'] or does not start with ['r']; the question is about the
    descriptor attached.  A read-only attach never makes the query. *)
Theorem fdopen_isatty_iff sys fd mode m fd' :
  let x := __fdopen fd mode sys m in
  requested (Isatty fd') x <->
  fd' = fd /\ retval x <> NULL /\
  (strchr mode "+" <> None \/ deref mode <> "r"%char).
Proof.
  cbv zeta. by_exit fd mode sys m.
  1-3: split; cbn [retval];
    [ intros [r Hin]; cbn in Hin; intuition discriminate
    | intros (_ & Hr & _); now contradiction Hr ].
  rewrite attached_retval.
  assert (Hw : tst (mode_flags (deref mode) (nonnull (strchr mode "+"))) F_NOWR
               = false <->
               strchr mode "+" <> None \/ deref mode <> "r"%char).
  { rewrite mode_flags_nowr, <- nonnull_true.
    destruct (nonnull (strchr mode "+")), (Ascii.eqb_spec (deref mode) "r");
      cbn; intuition congruence. }
  split.
  - attached_stream_facts t Hs Hin' Hout.
    intros [r Hin].
    assert (Hk := Hin). apply attached_calls in Hk.
    destruct Hk as [E|[E|[[E _]|[[E _]|[E|E]]]]]; try discriminate E.
    inversion E. subst fd'.
    destruct (Hout _ _ Hin) as [Hnw _].
    split; [reflexivity|]. split; [assumption|]. now apply Hw.
  - intros (-> & _ & Hm). apply attached_isatty. now apply Hw.
Qed.

(** X9: [__fdopen] stores a value in [errno] itself exactly when it rejects
    the mode string, and the value is [EINVAL]; on the other failures the
    error is whatever the failed collaborator left. *)
Theorem fdopen_errno_iff sys fd mode m e :
  let x := __fdopen fd mode sys m in
  requested (Errno e) x <-> strchr "rwa" (deref mode) = None /\ e = EINVAL.
Proof.
  cbv zeta. by_exit fd mode sys m.
  - split.
    + intros [r [E|[]]]. inversion E. auto.
    + intros [_ ->]. eexists. now left.
  - split; [intros [r Hin]; cbn in Hin; intuition discriminate | tauto].
  - split; [intros [r Hin]; cbn in Hin; intuition discriminate | tauto].
  - split; [|tauto]. intros [r Hin]. apply attached_calls in Hin.
    intuition discriminate.
Qed.

(** X10: the stores [__fdopen] makes itself, the zero-fill and the
    assignments to members, go to the block it allocated and nowhere else:
    at every address other than the one returned, the members [flags],
    [fd], [buf], [buf_size], [lbf] and the four operation slots are after
    the run what they were before.  (The link members [__ofl_add] writes
    when it inserts the stream are not members of [FILE.t].) *)
Theorem fdopen_memory_frame sys fd mode m p :
  let x := __fdopen fd mode sys m in
  p <> retval x ->
  mem (final x) !! p = mem m !! p.
Proof.
  cbv zeta. by_exit fd mode sys m; cbn [retval final mem]; trivial.
  rewrite attached_retval. apply attached_mem_other.
Qed.

(** X11: a run does not depend on what memory held: from two states with
    the same world, whatever objects they hold, [__fdopen] makes the same
    calls, leaves the same world and returns the same address, and the
    stream at that address is the same.  In particular nothing of what the
    allocated block held before shows in the stream. *)
Theorem fdopen_ignores_old_contents sys fd mode m m' :
  os m = os m' ->
  let x := __fdopen fd mode sys m in
  let x' := __fdopen fd mode sys m' in
  retval x' = retval x /\
  calls x' = calls x /\
  os (final x') = os (final x) /\
  (retval x <> NULL -> stream_of x' = stream_of x).
Proof.
  intros Hw. cbv zeta.
  rewrite !fdopen_run. unfold fdopen_outcome. cbv zeta. rewrite <- Hw.
  destruct (negb (nonnull (strchr "rwa" (deref mode)))).
  { cbn. repeat split. intros Hr. now contradiction Hr. }
  destruct (fst (sys (Fcntl fd F_GETFL) (os m)) <? 0).
  { cbn. repeat split. intros Hr. now contradiction Hr. }
  destruct (Z.eqb_spec (fst (sys (Malloc (sizeof_FILE + UNGET + BUFSIZ))
                               (snd (sys (Fcntl fd F_GETFL) (os m))))) NULL)
    as [E|E].
  { cbn. repeat split. intros Hr. now contradiction Hr. }
  repeat split.
  intros _. unfold stream_of, attached_outcome. cbv zeta.
  cbn [retval final mem]. now rewrite !lookup_insert_eq.
Qed.

(** X12: [__fdopen] registers a stream exactly when it returns one, and
    what it registers is the stream it returns. *)
Theorem fdopen_registered_iff sys fd mode m p :
  let x := __fdopen fd mode sys m in
  requested (Ofl_add p) x <-> retval x <> NULL /\ p = retval x.
Proof.
  cbv zeta. by_exit fd mode sys m.
  1-3: split; cbn [retval];
    [ intros [r Hin]; cbn in Hin; intuition discriminate
    | intros (Hr & _); now contradiction Hr ].
  rewrite attached_retval. split.
  - intros [r Hin]. apply attached_calls in Hin.
    destruct Hin as [E|[E|[[E _]|[[E _]|[E|E]]]]]; try discriminate E.
    inversion E. auto.
  - intros (_ & ->). apply attached_ofl_add.
Qed.

(** X13: attaching for append twice sets the append flag once: when a first
    run on a descriptor whose flags lacked append had its append request
    succeed (with collaborators that honour it), a second run on the same
    descriptor from the state the first one left, whatever its mode string,
    makes no request to set status flags. *)
Theorem fdopen_append_once sys fd mode1 mode2 m :
  honours_append sys fd ->
  deref mode1 = "a"%char ->
  tst (queried sys fd m) O_APPEND = false ->
  let x1 := __fdopen fd mode1 sys m in
  retval x1 <> NULL ->
  (forall r,
     In (Fcntl fd (F_SETFL (Z.lor (queried sys fd m) O_APPEND)), r) (calls x1) ->
     0 <= r) ->
  let x2 := __fdopen fd mode2 sys (final x1) in
  forall fd' a, ~ requested (Fcntl fd' (F_SETFL a)) x2.
Proof.
  intros Hh Hm Hfl x1 Hr Hok x2 fd' a Hreq. subst x1 x2.
  apply fdopen_setfl_inv in Hreq. destruct Hreq as (_ & _ & _ & Hfl2 & _).
  destruct (fdopen_nonnull _ _ _ _ Hr) as (Hv & Hq & Ha).
  rewrite fdopen_attached in Hfl2, Hok by assumption.
  assert (Hma : Ascii.eqb (deref mode1) "a" = true) by now apply Ascii.eqb_eq.
  match type of Hok with
  | context [ attached_outcome ?fd ?c0 ?p ?e ?sys ?fl ?f ?w ?mm ] =>
      destruct (attached_append fd c0 p e sys fl f w mm Hma Hfl) as (r & Hin & Hr');
      pose proof (attached_appending fd c0 p e sys fl f w mm Hh Hma Hfl
                    o_append_nonzero) as Happ
  end.
  specialize (Hok r Hin). subst r. specialize (Happ Hok).
  unfold appending, queried in *. congruence.
Qed.

End Extras.

(** ** Further runs in the reference world *)

Section MoreExamples.
Import Sim.

Lemma fdopen_failure_no_trace_witness :
  let x := __fdopen 7 "we" kernel m0 in
  retval x = NULL /\
  mem (final x) = mem m0 /\
  (forall fd' a, ~ requested (Fcntl fd' (F_SETFD a)) x) /\
  (forall fd' a, ~ requested (Fcntl fd' (F_SETFL a)) x) /\
  (forall fd', ~ requested (Isatty fd') x) /\
  (forall p, ~ requested (Ofl_add p) x).
Proof.
  assert (Hr : retval (__fdopen 7 "we" kernel m0) = NULL) by reflexivity.
  split; [exact Hr|].
  exact (fdopen_failure_no_trace kernel 7 "we" m0 Hr).
Defined.

Lemma fdopen_alloc_failure_witness :
  let m := Machine w_full ∅ in
  let x := __fdopen 3 "w" kernel m in
  strchr "rwa" (deref "w") <> None /\
  0 <= queried kernel 3 m /\
  allocated kernel 3 m = NULL /\
  retval x = NULL /\
  calls x = [(Fcntl 3 F_GETFL, queried kernel 3 m);
             (Malloc (sizeof_FILE + UNGET + BUFSIZ), NULL)] /\
  os (final x) = snd (kernel (Malloc (sizeof_FILE + UNGET + BUFSIZ))
                        (snd (kernel (Fcntl 3 F_GETFL) (os m)))) /\
  mem (final x) = mem m /\
  (forall e, ~ requested (Errno e) x).
Proof.
  intros m.
  assert (Hv : strchr "rwa" (deref "w") <> None) by (vm_compute; discriminate).
  assert (Hq : 0 <= queried kernel 3 m) by (vm_compute; discriminate).
  assert (Ha : allocated kernel 3 m = NULL) by reflexivity.
  split; [exact Hv|]. split; [exact Hq|]. split; [exact Ha|].
  exact (fdopen_alloc_failure kernel 3 "w" m Hv Hq Ha).
Defined.

Lemma fdopen_invalid_mode_witness :
  let x := __fdopen 3 "+r" kernel m0 in
  deref "+r" <> "r"%char /\ deref "+r" <> "w"%char /\
  deref "+r" <> "a"%char /\ deref "+r" <> NUL /\
  retval x = NULL /\
  calls x = [(Errno EINVAL, fst (kernel (Errno EINVAL) (os m0)))] /\
  os (final x) = snd (kernel (Errno EINVAL) (os m0)) /\
  mem (final x) = mem m0.
Proof.
  assert (Hr : deref "+r" <> "r"%char) by discriminate.
  assert (Hw : deref "+r" <> "w"%char) by discriminate.
  assert (Ha : deref "+r" <> "a"%char) by discriminate.
  assert (Hn : deref "+r" <> NUL) by discriminate.
  split; [exact Hr|]. split; [exact Hw|]. split; [exact Ha|]. split; [exact Hn|].
  exact (fdopen_invalid_mode kernel 3 "+r" m0 Hr Hw Ha Hn).
Defined.

Lemma fdopen_append_bit_iff_witness :
  let x := __fdopen 3 "ra" kernel m0 in
  HeaderOk musl /\
  retval x <> NULL /\
  exists s,
    stream_of x = Some s /\
    (tst (FILE.flags s) F_APP = true <-> deref "ra" = "a"%char).
Proof.
  assert (Hr : retval (__fdopen 3 "ra" kernel m0) <> NULL)
    by (vm_compute; discriminate).
  split; [exact musl_ok|]. split; [exact Hr|].
  exact (fdopen_append_bit_iff (HOk := musl_ok) kernel 3 "ra" m0 Hr).
Defined.

Lemma fdopen_isatty_iff_witness :
  let x := __fdopen 0 "r" kernel m0 in
  HeaderOk musl /\
  (requested (Isatty 0) x <->
   0 = 0 /\ retval x <> NULL /\
   (strchr "r" "+" <> None \/ deref "r" <> "r"%char)).
Proof.
  split; [exact musl_ok|].
  exact (fdopen_isatty_iff (HOk := musl_ok) kernel 0 "r" m0 0).
Defined.

Lemma fdopen_memory_frame_witness :
  let m1 := final (__fdopen 3 "r" kernel m0) in
  let x := __fdopen 0 "w" kernel m1 in
  4096 <> retval x /\
  mem (final x) !! 4096 = mem m1 !! 4096.
Proof.
  intros m1.
  assert (Hp : 4096 <> retval (__fdopen 0 "w" kernel m1))
    by (vm_compute; discriminate).
  split; [exact Hp|].
  exact (fdopen_memory_frame kernel 0 "w" m1 4096 Hp).
Defined.

Lemma fdopen_ignores_old_contents_witness :
  let m := Machine w0 {[ 4096 := FILE.mk 255 9 9 9 9
                                   __stdio_close fn_null fn_null fn_null ]} in
  let x := __fdopen 3 "r" kernel m0 in
  let x' := __fdopen 3 "r" kernel m in
  os m0 = os m /\
  retval x' = retval x /\
  calls x' = calls x /\
  os (final x') = os (final x) /\
  (retval x <> NULL -> stream_of x' = stream_of x).
Proof.
  intros m.
  assert (Hw : os m0 = os m) by reflexivity.
  split; [exact Hw|].
  exact (fdopen_ignores_old_contents kernel 3 "r" m0 m Hw).
Defined.

Lemma fdopen_append_once_witness :
  let x1 := __fdopen 3 "a" kernel m0 in
  let x2 := __fdopen 3 "a+" kernel (final x1) in
  HeaderOk musl /\
  honours_append kernel 3 /\
  deref "a" = "a"%char /\
  tst (queried kernel 3 m0) O_APPEND = false /\
  retval x1 <> NULL /\
  (forall r,
     In (Fcntl 3 (F_SETFL (Z.lor (queried kernel 3 m0) O_APPEND)), r) (calls x1) ->
     0 <= r) /\
  forall fd' a, ~ requested (Fcntl fd' (F_SETFL a)) x2.
Proof.
  assert (Hh : honours_append kernel 3) by apply SimFacts.kernel_honours_append.
  assert (Hm : deref "a" = "a"%char) by reflexivity.
  assert (Hf : tst (queried kernel 3 m0) O_APPEND = false) by reflexivity.
  assert (Hr : retval (__fdopen 3 "a" kernel m0) <> NULL)
    by (vm_compute; discriminate).
  assert (Hok : forall r,
            In (Fcntl 3 (F_SETFL (Z.lor (queried kernel 3 m0) O_APPEND)), r)
               (calls (__fdopen 3 "a" kernel m0)) -> 0 <= r).
  { intros r Hin. vm_compute in Hin.
    repeat (destruct Hin as [E|Hin];
            [try discriminate E; inversion E; lia|]).
    contradiction. }
  split; [exact musl_ok|]. split; [exact Hh|]. split; [exact Hm|].
  split; [exact Hf|]. split; [exact Hr|]. split; [exact Hok|].
  exact (fdopen_append_once (HOk := musl_ok) kernel 3 "a" "a+" m0
           Hh Hm Hf Hr Hok).
Defined.

End MoreExamples.
